(** * collectZ: the blu-ray.com search and detail scrapers

    A shallow embedding of [bluraySearch.py] and [blurayInfo.py].

    Both scripts are straight-line pipelines: build a URL, fetch the page,
    read fixed places of the parsed document, print.  The fetched and parsed
    document is an input of the model (a record holding what the script's
    [find]/[find_all] calls return); everything the scripts compute from it
    is translated statement by statement, with Python's exceptions as an
    error result.

    Text is modelled by [string], read as the UTF-8 encoding of a Python
    [str]: an ASCII character is one [ascii] below 128, any other character
    a run of [ascii] from 128 up.  The separators the scripts split and
    replace on are ASCII, so those operations act on the encoding as they
    act on the text.  Matching with [re.IGNORECASE] is given its meaning on
    ASCII patterns and ASCII text only, where the letters [A]-[Z] and
    [a]-[z] are the case pairs; on any other text it is a parameter of the
    model. *)

From Stdlib Require Import String Ascii List Arith Bool Lia.
Import ListNotations.

Local Open Scope string_scope.
Local Open Scope list_scope.

(** ** Python primitives used by the two scripts *)

Module Py.

(** The exception classes the scripts can raise on their own data. *)
Inductive py_error : Type :=
| IndexError      (* list index out of range *)
| KeyError        (* missing attribute of a tag *)
| TypeError       (* subscript of None *)
| AttributeError  (* attribute of None *)
| ReError.        (* re.error: the pattern does not compile *)

Inductive result (A : Type) : Type :=
| Ok (a : A)
| Raise (e : py_error).

Arguments Ok {A} a.
Arguments Raise {A} e.

Definition bind {A B : Type} (m : result A) (k : A -> result B) : result B :=
  match m with
  | Ok a => k a
  | Raise e => Raise e
  end.

Notation "x <- m ;; k" := (bind m (fun x => k))
  (at level 61, m at next level, right associativity).

(** [xs[i]] for a constant, non-negative [i]. *)
Definition idx {A : Type} (xs : list A) (i : nat) : result A :=
  match nth_error xs i with
  | Some x => Ok x
  | None => Raise IndexError
  end.

(** [list.insert(i, x)] for [i >= 0]: [x] goes before position [i], and at
    the end when the list is shorter than [i]. *)
Fixpoint py_insert {A : Type} (i : nat) (x : A) (xs : list A) : list A :=
  match i, xs with
  | O, _ => x :: xs
  | S _, [] => [x]
  | S j, y :: ys => y :: py_insert j x ys
  end.

(** A [dict] with [str] keys, in insertion order. *)
Definition dict (V : Type) : Type := list (string * V).

(** [d[k] = v]: an existing key keeps its place and takes the new value, a
    new key goes last. *)
Fixpoint dict_set {V : Type} (d : dict V) (k : string) (v : V) : dict V :=
  match d with
  | [] => [(k, v)]
  | (k', v') :: d' =>
      if String.eqb k' k then (k', v) :: d' else (k', v') :: dict_set d' k v
  end.

(** [d[k]]. *)
Fixpoint dict_get {V : Type} (d : dict V) (k : string) : result V :=
  match d with
  | [] => Raise KeyError
  | (k', v) :: d' => if String.eqb k' k then Ok v else dict_get d' k
  end.

(** A dict display [{k1: v1, ..., kn: vn}]: the items are stored left to
    right. *)
Definition dict_display {V : Type} (items : list (string * V)) : dict V :=
  fold_left (fun d kv => dict_set d (fst kv) (snd kv)) items [].

Definition dict_values {V : Type} (d : dict V) : list V := map snd d.

(** [tag[name]] on the attributes of a tag. *)
Definition attrs : Type := list (string * string).

Fixpoint attr (a : attrs) (name : string) : result string :=
  match a with
  | [] => Raise KeyError
  | (k, v) :: a' => if String.eqb k name then Ok v else attr a' name
  end.

(** [s.split(sep)] for a non-empty [sep] (the scripts pass the literals
    [" | "], [" ("] and ["/"]).  [skip] counts the characters of a separator
    occurrence still to be passed.  The head of the result is the part being
    read. *)
Fixpoint split_go (sep : string) (skip : nat) (s : string) : list string :=
  match s with
  | EmptyString => [EmptyString]
  | String c s' =>
      match skip with
      | S k => split_go sep k s'
      | O =>
          if prefix sep s
          then EmptyString :: split_go sep (String.length sep - 1) s'
          else match split_go sep 0 s' with
               | p :: ps => String c p :: ps
               | [] => [String c EmptyString]
               end
      end
  end.

Definition py_split (sep s : string) : list string := split_go sep 0 s.

(** [s.replace(old, new)] for a non-empty [old]. *)
Fixpoint replace_go (old new : string) (skip : nat) (s : string) : string :=
  match s with
  | EmptyString => EmptyString
  | String c s' =>
      match skip with
      | S k => replace_go old new k s'
      | O =>
          if prefix old s
          then new ++ replace_go old new (String.length old - 1) s'
          else String c (replace_go old new 0 s')
      end
  end.

Definition py_replace (old new s : string) : string := replace_go old new 0 s.

End Py.

Import Py.

(** ** bluraySearch.py *)

Module BluraySearch.

Definition pagenum : string := "1".  (* str(pagenum), with pagenum = 1 *)
Definition baseURL : string := "https://www.blu-ray.com/search/?quicksearch=".
Definition country : string := "&quicksearch_country=US".
Definition keyword : string := "&quicksearch_keyword=".
Definition searchSection : string := "&section=bluraymovies".

Definition searchTerm (searchInput : string) : string :=
  py_replace " " "+" searchInput.

Definition url (searchInput : string) : string :=
  baseURL ++ pagenum ++ country ++ keyword ++ searchTerm searchInput
          ++ searchSection.

(** What the script reads of one [div] of [searchresults]: [div.a] (absent
    when the card holds no link), the link's attributes and [div.a.img].
    A tag is always true as a condition. *)
Record anchor : Type := {
  a_attrs : attrs;
  a_img : option attrs
}.

Definition card : Type := option anchor.

Record movie : Type := {
  title : string;
  categoryID : string;
  parentID : string;
  gproductID : string;
  productID : string;
  productURL : string;
  productCover : string
}.

(** The body of [for div in searchresults]. *)
Definition add_card (movies : dict movie) (div : card) : result (dict movie) :=
  match div with
  | None => Ok movies
  | Some a =>
      match a_img a with
      | Some img =>
          t <- attr (a_attrs a) "title";;
          c <- attr (a_attrs a) "data-categoryid";;
          p <- attr (a_attrs a) "data-globalparentid";;
          g <- attr (a_attrs a) "data-globalproductid";;
          i <- attr (a_attrs a) "data-productid";;
          u <- attr (a_attrs a) "href";;
          s <- attr img "src";;
          k <- attr (a_attrs a) "data-productid";;
          Ok (dict_set movies k
                {| title := t; categoryID := c; parentID := p;
                   gproductID := g; productID := i; productURL := u;
                   productCover := s |})
      | None =>
          t <- attr (a_attrs a) "title";;
          c <- attr (a_attrs a) "data-categoryid";;
          p <- attr (a_attrs a) "data-globalparentid";;
          g <- attr (a_attrs a) "data-globalproductid";;
          i <- attr (a_attrs a) "data-productid";;
          u <- attr (a_attrs a) "href";;
          k <- attr (a_attrs a) "data-productid";;
          Ok (dict_set movies k
                {| title := t; categoryID := c; parentID := p;
                   gproductID := g; productID := i; productURL := u;
                   productCover := "" |})
      end
  end.

Fixpoint extract (movies : dict movie) (searchresults : list card)
  : result (dict movie) :=
  match searchresults with
  | [] => Ok movies
  | div :: rest => m <- add_card movies div;; extract m rest
  end.

(** *** [re.search(pattern, string, re.IGNORECASE)]

    The call returns a match object (true as a condition), returns [None],
    or raises [re.error].  ASCII patterns written with ordinary characters,
    [.] and backslash-escaped special characters are given their meaning
    here, on ASCII text; the rest of the pattern language, and every call
    where the pattern or the text holds a character beyond ASCII (where
    [re.IGNORECASE] follows the Unicode case tables), is left to [re_other]
    below. *)

Inductive re_result : Type := ReMatch | ReNone | ReRaises.

Inductive atom : Type :=
| Lit (c : ascii)   (* this character, in either case *)
| Dot.              (* any character but a newline *)

Definition is_special (c : ascii) : bool :=
  existsb (Ascii.eqb c)
    ["."; "^"; "$"; "*"; "+"; "?"; "{"; "}"; "["; "]"; "\"; "|"; "("; ")"]%char.

Fixpoint parse_pattern (p : string) : option (list atom) :=
  match p with
  | EmptyString => Some []
  | String c p' =>
      if Ascii.eqb c "." then option_map (cons Dot) (parse_pattern p')
      else if Ascii.eqb c "\" then
        match p' with
        | String d p'' =>
            if is_special d then option_map (cons (Lit d)) (parse_pattern p'')
            else None
        | EmptyString => None
        end
      else if is_special c then None
      else option_map (cons (Lit c)) (parse_pattern p')
  end.

Definition lower (c : ascii) : ascii :=
  let n := nat_of_ascii c in
  if ((65 <=? n) && (n <=? 90))%nat then ascii_of_nat (n + 32) else c.

Definition atom_matches (a : atom) (c : ascii) : bool :=
  match a with
  | Lit l => Ascii.eqb (lower l) (lower c)
  | Dot => negb (Ascii.eqb c "010")
  end.

Fixpoint match_here (atoms : list atom) (s : string) : bool :=
  match atoms, s with
  | [], _ => true
  | _ :: _, EmptyString => false
  | a :: atoms', String c s' => atom_matches a c && match_here atoms' s'
  end.

Fixpoint search_atoms (atoms : list atom) (s : string) : bool :=
  match_here atoms s
  || match s with
     | EmptyString => false
     | String _ s' => search_atoms atoms s'
     end.

(** Text without a character beyond ASCII. *)
Definition is_ascii (c : ascii) : bool := (nat_of_ascii c <? 128)%nat.

Fixpoint ascii_text (s : string) : bool :=
  match s with
  | EmptyString => true
  | String c s' => is_ascii c && ascii_text s'
  end.

Section Tool.

(** [re.search] on the patterns [parse_pattern] does not read, and on
    patterns or text beyond ASCII. *)
Variable re_other : string -> string -> re_result.

Definition re_search (pattern s : string) : re_result :=
  match parse_pattern pattern with
  | Some atoms =>
      if ascii_text pattern && ascii_text s
      then (if search_atoms atoms s then ReMatch else ReNone)
      else re_other pattern s
  | None => re_other pattern s
  end.

(** The five [print] calls for one entry. *)
Definition entry_block (m : movie) : list string :=
  [ ("   ID: " ++ productID m)%string;
    ("Title: " ++ title m)%string;
    (" Page: " ++ productURL m)%string;
    ("Cover: " ++ productCover m)%string;
    "" ].

(** [for movie in movies: if re.search(...): print ...], over the values
    [movies[movie]] in key order (the keys of a dict are distinct, so each
    key reads the value stored with it: [extract_keys_distinct] and
    [dict_get_stored] below).  The result is the lines printed and the
    exception that ended the loop, if one did. *)
Fixpoint print_matches (searchInput : string) (ms : list movie)
  : list string * option py_error :=
  match ms with
  | [] => ([], None)
  | m :: rest =>
      match re_search searchInput (title m) with
      | ReMatch =>
          let (out, e) := print_matches searchInput rest in
          (entry_block m ++ out, e)
      | ReNone => print_matches searchInput rest
      | ReRaises => ([], Some ReError)
      end
  end.

(** The script from [movies = {}] on: the lines written to standard output
    and the uncaught exception, if any. *)
Definition main (searchInput : string) (searchresults : list card)
  : list string * option py_error :=
  match extract [] searchresults with
  | Raise e => ([], Some e)
  | Ok movies =>
      match movies with
      | [] =>
          (["Results:"; "No results. Try fewer words or check your spelling."],
           None)
      | _ :: _ =>
          let (out, e) := print_matches searchInput (dict_values movies) in
          ("Results:" :: out, e)
      end
  end.

End Tool.

End BluraySearch.

(** ** blurayInfo.py *)

Module BlurayInfo.

Definition baseURL : string := "https://www.blu-ray.com/movies/".

(** [titleInput.split(' (')[0].replace(' ', '-').replace('+','and')]; the
    list [split] returns is never empty. *)
Definition titleClean (titleInput : string) : string :=
  py_replace "+" "and"
    (py_replace " " "-" (hd EmptyString (py_split " (" titleInput))).

(** [titleID] is [sys.argv[2]], a [str]; [str(titleID)] is [titleID]. *)
Definition titleURL (titleInput titleID : string) : string :=
  baseURL ++ titleClean titleInput ++ "-Blu-ray/" ++ titleID ++ "/".

(** What the script reads of the parsed detail page, one field per [find] or
    [find_all] call. *)
Record detail_page : Type := {
  (* the [.text] of each [span] of class "subheading grey" *)
  subheadings : list string;
  (* for each [div] with id "bluray_rating": its [.table], absent or given
     by the [.text] of its [td] cells in document order *)
  rating_divs : list (option (list string));
  (* [find('img', id="frontimage_overlay")]: None or the tag's attributes *)
  frontimage : option attrs;
  (* the attributes of each [a] with id "movie_buylink" *)
  buylinks : list attrs;
  (* the attributes of each [a] with id "imdb_icon" *)
  imdb_icons : list attrs;
  (* for each [div] with id "videotrailer_container": its [.source] *)
  trailers : list (option attrs)
}.

(** Lines 27 to 32, on the texts of the cells [td]. *)
Definition ratings (td : list string) : result (dict string) :=
  c <- idx td 0;;
  if String.eqb c "3D" then
    k0 <- idx td 0;; v0 <- idx td 2;;
    k1 <- idx td 3;; v1 <- idx td 5;;
    k2 <- idx td 6;; v2 <- idx td 8;;
    k3 <- idx td 9;; v3 <- idx td 11;;
    k4 <- idx td 12;; v4 <- idx td 14;;
    Ok (dict_display [(k0, v0); (k1, v1); (k2, v2); (k3, v3); (k4, v4)])
  else
    c' <- idx td 0;;
    if String.eqb c' "Video 4k" then
      k0 <- idx td 0;; v0 <- idx td 2;;
      k1 <- idx td 3;; v1 <- idx td 5;;
      k2 <- idx td 6;; v2 <- idx td 8;;
      k3 <- idx td 9;; v3 <- idx td 11;;
      Ok (dict_display [(k0, v0); (k1, v1); (k2, v2); (k3, v3)])
    else
      k0 <- idx td 0;; v0 <- idx td 2;;
      k1 <- idx td 3;; v1 <- idx td 5;;
      k2 <- idx td 6;; v2 <- idx td 8;;
      Ok (dict_display [(k0, v0); (k1, v1); (k2, v2)]).

Record release : Type := {
  studio : string;
  year : string;
  length : string;
  rating : string;
  date : string;
  coverArt : string;
  amazon : string;
  imdbURL : string;
  imdbID : string;
  trailer : string;
  title : string
}.

(** [release.__init__]. *)
Definition release_init (dictionary : list string) : result release :=
  f0 <- idx dictionary 0;;
  f1 <- idx dictionary 1;;
  f2 <- idx dictionary 2;;
  f3 <- idx dictionary 3;;
  f4 <- idx dictionary 4;;
  f5 <- idx dictionary 5;;
  f6 <- idx dictionary 6;;
  f7 <- idx dictionary 7;;
  u <- idx dictionary 7;;
  i <- idx (py_split "/" u) 4;;
  f8 <- idx dictionary 8;;
  f9 <- idx dictionary 9;;
  Ok {| studio := f0; year := f1; length := f2; rating := f3; date := f4;
        coverArt := f5; amazon := f6; imdbURL := f7; imdbID := i;
        trailer := f8; title := f9 |}.

Definition nl : string := String "010" EmptyString.

(** [release.__str__]. *)
Definition release_str (r : release) : string :=
  title r ++ nl ++ studio r ++ " " ++ year r ++ nl
  ++ "Duration: " ++ length r ++ nl
  ++ "Rated: " ++ rating r ++ nl
  ++ "Released: " ++ date r ++ nl
  ++ "Cover Art: " ++ coverArt r ++ nl
  ++ "Amazon Link: " ++ amazon r ++ nl
  ++ "IMDB Link: " ++ imdbURL r ++ nl
  ++ "IMDB ID: " ++ imdbID r ++ nl
  ++ "Trailer: " ++ trailer r.

(** [x[...]] where [x] may be [None]. *)
Definition subscriptable {A : Type} (x : option A) : result A :=
  match x with
  | Some a => Ok a
  | None => Raise TypeError
  end.

(** Lines 22 to 43: the positional list handed to [release], and the
    ratings mapping. *)
Definition build_titleInfo (titleInput : string) (soup : detail_page)
  : result (list string * dict string) :=
  sub <- idx (subheadings soup) 0;;
  let titleInfo := py_split " | " sub in
  div <- idx (rating_divs soup) 0;;
  td <- match div with
        | Some cells => Ok cells
        | None => Raise AttributeError
        end;;
  ratings <- ratings td;;
  let titleInfo :=
    if Nat.eqb (List.length titleInfo) 4 then py_insert 0 EmptyString titleInfo
    else titleInfo in
  img <- subscriptable (frontimage soup);;
  src <- attr img "src";;
  let titleInfo := py_insert 5 src titleInfo in
  buy <- idx (buylinks soup) 0;;
  href <- attr buy "href";;
  let titleInfo := py_insert 6 href titleInfo in
  icon <- idx (imdb_icons soup) 0;;
  href <- attr icon "href";;
  let titleInfo := py_insert 7 href titleInfo in
  container <- idx (trailers soup) 0;;
  source <- subscriptable container;;
  src <- attr source "src";;
  let titleInfo := py_insert 8 src titleInfo in
  let titleInfo := py_insert 9 titleInput titleInfo in
  Ok (titleInfo, ratings).

(** The script from line 22 on, for the page fetched at [titleURL]: the
    record and the ratings mapping it prints. *)
Definition main (titleInput : string) (soup : detail_page)
  : result (release * dict string) :=
  built <- build_titleInfo titleInput soup;;
  movieRelease <- release_init (fst built);;
  Ok (movieRelease, snd built).

End BlurayInfo.

(** ** Vocabulary of the specification

    The notions the specification speaks in, written from its words and
    independently of the scripts; the theorems below relate them to the
    translated code. *)

Module Spec.

(** [s] without the suffix that begins with the first occurrence of [sep]
    (all of [s] when [sep] does not occur). *)
Fixpoint cut_at_first (sep s : string) : string :=
  match s with
  | EmptyString => EmptyString
  | String c s' =>
      if prefix sep s then EmptyString else String c (cut_at_first sep s')
  end.

(** [s] with every character [c] replaced by the text [new]. *)
Fixpoint replace_char (c : ascii) (new s : string) : string :=
  match s with
  | EmptyString => EmptyString
  | String d s' =>
      if Ascii.eqb d c then new ++ replace_char c new s'
      else String d (replace_char c new s')
  end.






(** The text of cell [i] of a ratings table. *)
Definition cell (td : list string) (i : nat) : string := nth i td EmptyString.

(** The number of cells the variant chosen by the first cell reads. *)
Definition required_cells (td : list string) : nat :=
  if String.eqb (cell td 0) "3D" then 15
  else if String.eqb (cell td 0) "Video 4k" then 12
  else 9.

(** What the script reads of the detail page besides the subheading. *)
Definition page_ratings (soup : BlurayInfo.detail_page) : result (dict string) :=
  div <- idx (BlurayInfo.rating_divs soup) 0;;
  td <- match div with
        | Some cells => Ok cells
        | None => Raise AttributeError
        end;;
  BlurayInfo.ratings td.

Definition cover_url (soup : BlurayInfo.detail_page) : result string :=
  img <- BlurayInfo.subscriptable (BlurayInfo.frontimage soup);;
  attr img "src".

Definition purchase_link (soup : BlurayInfo.detail_page) : result string :=
  buy <- idx (BlurayInfo.buylinks soup) 0;;
  attr buy "href".

Definition imdb_link (soup : BlurayInfo.detail_page) : result string :=
  icon <- idx (BlurayInfo.imdb_icons soup) 0;;
  attr icon "href".

Definition trailer_url (soup : BlurayInfo.detail_page) : result string :=
  container <- idx (BlurayInfo.trailers soup) 0;;
  source <- BlurayInfo.subscriptable container;;
  attr source "src".

(** The positional list after lines 35 to 43, from the subheading parts and
    the five values appended to them. *)
Definition positional (parts : list string)
  (cover buy imdb trailer titleInput : string) : list string :=
  py_insert 9 titleInput
    (py_insert 8 trailer
       (py_insert 7 imdb
          (py_insert 6 buy
             (py_insert 5 cover
                (if Nat.eqb (List.length parts) 4
                 then py_insert 0 EmptyString parts
                 else parts))))).

(** [sep.join(parts)]. *)
Fixpoint join (sep : string) (parts : list string) : string :=
  match parts with
  | [] => EmptyString
  | p :: ps =>
      match ps with
      | [] => p
      | _ :: _ => p ++ sep ++ join sep ps
      end
  end.

(** [sep] occurs in [s]. *)
Definition occurs (sep s : string) : Prop :=
  exists a b : string, s = (a ++ sep ++ b)%string.

(** [m] is the entry read from the link [a]: its six attributes and the
    source of its image, or no cover when it has no image. *)
Definition entry_of (a : BluraySearch.anchor) (m : BluraySearch.movie) : Prop :=
  attr (BluraySearch.a_attrs a) "title" = Ok (BluraySearch.title m)
  /\ attr (BluraySearch.a_attrs a) "data-categoryid"
     = Ok (BluraySearch.categoryID m)
  /\ attr (BluraySearch.a_attrs a) "data-globalparentid"
     = Ok (BluraySearch.parentID m)
  /\ attr (BluraySearch.a_attrs a) "data-globalproductid"
     = Ok (BluraySearch.gproductID m)
  /\ attr (BluraySearch.a_attrs a) "data-productid"
     = Ok (BluraySearch.productID m)
  /\ attr (BluraySearch.a_attrs a) "href" = Ok (BluraySearch.productURL m)
  /\ match BluraySearch.a_img a with
     | Some img => attr img "src" = Ok (BluraySearch.productCover m)
     | None => BluraySearch.productCover m = EmptyString
     end.

End Spec.

(** Sample documents used to run the scripts. *)

Module Samples.

Definition sinners_card : BluraySearch.card :=
  Some {| BluraySearch.a_attrs :=
            [("title", "Sinners"); ("data-categoryid", "7");
             ("data-globalparentid", "55"); ("data-globalproductid", "66");
             ("data-productid", "123");
             ("href", "https://www.blu-ray.com/movies/Sinners-Blu-ray/123/")];
          BluraySearch.a_img := Some [("src", "https://images.example/123.jpg")] |}.

Definition abc_card : BluraySearch.card :=
  Some {| BluraySearch.a_attrs :=
            [("title", "abc"); ("data-categoryid", "7");
             ("data-globalparentid", "1"); ("data-globalproductid", "2");
             ("data-productid", "9"); ("href", "/movies/abc-Blu-ray/9/")];
          BluraySearch.a_img := None |}.

(** A value for [re_other] with which to run the samples.  Every sample is
    ASCII and within the modelled patterns, so none reaches it; it says
    nothing of how Python treats other patterns or other text. *)
Definition no_other (pattern s : string) : BluraySearch.re_result :=
  BluraySearch.ReRaises.

Definition page_with (subheading : string) : BlurayInfo.detail_page :=
  {| BlurayInfo.subheadings := [subheading];
     BlurayInfo.rating_divs :=
       [Some ["Video"; ""; "4.5"; "Audio"; ""; "5.0"; "Extras"; ""; "3.0"]];
     BlurayInfo.frontimage := Some [("id", "frontimage_overlay");
                                    ("src", "https://images.example/front.jpg")];
     BlurayInfo.buylinks := [[("href", "https://www.amazon.com/dp/B0")]];
     BlurayInfo.imdb_icons := [[("href", "https://www.imdb.com/title/tt1234567/")]];
     BlurayInfo.trailers := [Some [("src", "https://video.example/t.mp4")]] |}.

Definition page4 : BlurayInfo.detail_page :=
  page_with "2025 | 137 min | Rated R | Jul 08, 2025".

Definition page5 : BlurayInfo.detail_page :=
  page_with "Warner Bros. | 2025 | 137 min | Rated R | Jul 08, 2025".

Definition page7 : BlurayInfo.detail_page :=
  page_with "Warner Bros. | 2025 | 137 min | Rated R | Jul 08, 2025 | 4K | Steelbook".

Definition td_3d : list string :=
  ["3D"; ""; "4.5"; "Video"; ""; "4.0"; "Audio"; ""; "5.0";
   "Extras"; ""; "3.0"; "Overall"; ""; "4.0"].

Definition td_3d_twice : list string :=
  ["3D"; ""; "4.5"; "3D"; ""; "4.0"; "Audio"; ""; "5.0";
   "Extras"; ""; "3.0"; "Overall"; ""; "4.0"].

Definition sinners_fields : list string :=
  ["Warner Bros."; "2025"; "137 min"; "Rated R"; "Jul 08, 2025";
   "https://images.example/front.jpg"; "https://www.amazon.com/dp/B0";
   "https://www.imdb.com/title/tt1234567/"; "https://video.example/t.mp4";
   "Sinners (2025)"].

Definition sinners_4k_link : BluraySearch.anchor :=
  {| BluraySearch.a_attrs :=
       [("title", "Sinners 4K"); ("data-categoryid", "8");
        ("data-globalparentid", "55"); ("data-globalproductid", "67");
        ("data-productid", "123");
        ("href", "https://www.blu-ray.com/movies/Sinners-4K-Blu-ray/123/")];
     BluraySearch.a_img := None |}.

Definition sinners_4k_card : BluraySearch.card := Some sinners_4k_link.

Definition untitled_card : BluraySearch.card :=
  Some {| BluraySearch.a_attrs := [("data-productid", "5"); ("href", "/x/")];
          BluraySearch.a_img := None |}.

Definition page_without_table : BlurayInfo.detail_page :=
  {| BlurayInfo.subheadings := ["2025 | 137 min | Rated R | Jul 08, 2025"];
     BlurayInfo.rating_divs := [None];
     BlurayInfo.frontimage := None;
     BlurayInfo.buylinks := [];
     BlurayInfo.imdb_icons := [];
     BlurayInfo.trailers := [] |}.

End Samples.

(** * Properties *)

(** ** Facts about the Python primitives *)

Section PyFacts.

Context {A : Type}.

Lemma idx_Ok (xs : list A) (i : nat) (x : A) :
  idx xs i = Ok x <-> nth_error xs i = Some x.
Proof.
  unfold idx. destruct (nth_error xs i); split; intros H;
    inversion H; reflexivity.
Qed.

Lemma idx_cases (xs : list A) (i : nat) (d : A) :
  (i < List.length xs /\ idx xs i = Ok (nth i xs d))
  \/ (List.length xs <= i /\ idx xs i = Raise IndexError).
Proof.
  unfold idx. destruct (nth_error xs i) as [x|] eqn:E.
  - left. split.
    + apply nth_error_Some. congruence.
    + f_equal. symmetry. apply nth_error_nth. exact E.
  - right. split; [apply nth_error_None; exact E | reflexivity].
Qed.

Lemma idx_in_range (xs : list A) (i : nat) (d : A) :
  i < List.length xs -> idx xs i = Ok (nth i xs d).
Proof.
  intros H. destruct (idx_cases xs i d) as [[_ E] | [L _]]; [exact E | lia].
Qed.

Lemma idx_out_of_range (xs : list A) (i : nat) :
  List.length xs <= i -> idx xs i = Raise IndexError.
Proof.
  intros H. unfold idx.
  destruct (nth_error xs i) eqn:E; [| reflexivity].
  assert (i < List.length xs) by (apply nth_error_Some; congruence). lia.
Qed.

(** Past the end, [insert] appends. *)
Lemma py_insert_append (i : nat) (x : A) (xs : list A) :
  List.length xs <= i -> py_insert i x xs = xs ++ [x].
Proof.
  revert i. induction xs as [| y ys IH]; intros [| j] H; simpl in *;
    try reflexivity; try lia.
  f_equal. apply IH. lia.
Qed.

(** Within the list, [insert] puts the value before position [i]. *)
Lemma py_insert_middle (x : A) (front back : list A) :
  py_insert (List.length front) x (front ++ back) = front ++ x :: back.
Proof.
  induction front as [| y ys IH]; simpl.
  - destruct back; reflexivity.
  - f_equal. exact IH.
Qed.

Lemma py_insert_length (i : nat) (x : A) (xs : list A) :
  List.length (py_insert i x xs) = S (List.length xs).
Proof.
  revert i. induction xs as [| y ys IH]; intros [| j]; simpl; try reflexivity.
  f_equal. apply IH.
Qed.

Lemma dict_set_fresh (d : dict A) (k : string) (v : A) :
  ~ In k (map fst d) -> dict_set d k v = d ++ [(k, v)].
Proof.
  induction d as [| [k' v'] d IH]; simpl; intros H; [reflexivity |].
  destruct (String.eqb_spec k' k) as [E | _].
  - exfalso. apply H. left. exact E.
  - f_equal. apply IH. intros Hin. apply H. right. exact Hin.
Qed.

Lemma dict_fold_distinct (items acc : list (string * A)) :
  NoDup (map fst (acc ++ items)) ->
  fold_left (fun d kv => dict_set d (fst kv) (snd kv)) items acc = acc ++ items.
Proof.
  revert acc. induction items as [| [k v] items IH]; intros acc H; simpl.
  - symmetry. apply app_nil_r.
  - rewrite dict_set_fresh.
    + rewrite IH; rewrite <- app_assoc; [reflexivity | exact H].
    + rewrite map_app in H. simpl in H.
      apply NoDup_remove_2 in H. intros Hin. apply H.
      apply in_or_app. left. exact Hin.
Qed.

(** A display with pairwise distinct keys is stored as written. *)
Lemma dict_display_distinct (items : list (string * A)) :
  NoDup (map fst items) -> dict_display items = items.
Proof.
  intros H. unfold dict_display. rewrite dict_fold_distinct; auto.
Qed.

(** Storing a key never adds a second entry for it. *)
Lemma dict_set_keys (d : dict A) (k : string) (v : A) :
  In k (map fst d) -> map fst (dict_set d k v) = map fst d.
Proof.
  induction d as [| [k' v'] d IH]; simpl; intros H; [contradiction |].
  destruct (String.eqb_spec k' k) as [E | N]; [reflexivity |].
  simpl. f_equal. apply IH. destruct H as [H | H]; [contradiction | exact H].
Qed.

Lemma dict_set_new_key (d : dict A) (k : string) (v : A) (k' : string) :
  In k' (map fst (dict_set d k v)) -> k' = k \/ In k' (map fst d).
Proof.
  induction d as [| [k0 v0] d IH]; simpl.
  - intros [H | []]. left. congruence.
  - destruct (String.eqb_spec k0 k) as [E | N]; simpl.
    + intros H. right. exact H.
    + intros [H | H]; [right; left; exact H |].
      destruct (IH H) as [E | Hin]; [left; exact E | right; right; exact Hin].
Qed.

Lemma dict_set_distinct (d : dict A) (k : string) (v : A) :
  NoDup (map fst d) -> NoDup (map fst (dict_set d k v)).
Proof.
  induction d as [| [k0 v0] d IH]; simpl; intros H.
  - constructor; [intros [] | constructor].
  - inversion H as [| ? ? Hnotin Hrest]; subst.
    destruct (String.eqb_spec k0 k) as [E | N]; simpl.
    + exact H.
    + constructor; [| apply IH; exact Hrest].
      intros Hin. destruct (dict_set_new_key _ _ _ _ Hin) as [E | Hin'];
        [apply N; exact E | apply Hnotin; exact Hin'].
Qed.

(** With distinct keys, a key reads the value stored with it. *)
Lemma dict_get_stored (d : dict A) (k : string) (v : A) :
  NoDup (map fst d) -> In (k, v) d -> dict_get d k = Ok v.
Proof.
  induction d as [| [k0 v0] d IH]; simpl; intros H Hin; [contradiction |].
  inversion H as [| ? ? Hnotin Hrest]; subst.
  destruct Hin as [E | Hin].
  - inversion E; subst. rewrite String.eqb_refl. reflexivity.
  - destruct (String.eqb_spec k0 k) as [E | N]; [| apply IH; assumption].
    subst k0. exfalso. apply Hnotin.
    apply (in_map fst) in Hin. exact Hin.
Qed.

End PyFacts.

(** [cut_at_first] is the text before the first occurrence: what follows it
    is empty or starts with the separator, and the separator starts nowhere
    inside it. *)
Lemma cut_at_first_first (sep s : string) :
  exists rest : string,
    s = (Spec.cut_at_first sep s ++ rest)%string
    /\ (rest = EmptyString \/ prefix sep rest = true)
    /\ forall a b : string,
         Spec.cut_at_first sep s = (a ++ b)%string ->
         b <> EmptyString ->
         prefix sep (b ++ rest) = false.
Proof.
  induction s as [| c s (rest & Hs & Hrest & Hfirst)].
  - exists EmptyString. split; [reflexivity | split; [left; reflexivity |]].
    intros a b H Hb. destruct a; destruct b; try discriminate H.
    contradiction.
  - cbn [Spec.cut_at_first].
    destruct (prefix sep (String c s)) eqn:E.
    + exists (String c s).
      split; [reflexivity | split; [right; exact E |]].
      intros a b H Hb. destruct a; destruct b; try discriminate H.
      contradiction.
    + exists rest. split; [cbn; rewrite <- Hs; reflexivity |].
      split; [exact Hrest |].
      intros a b H Hb. destruct a as [| x a].
      * cbn in H. subst b. cbn. rewrite <- Hs. exact E.
      * cbn in H. inversion H as [[Hx Hcut]]. apply (Hfirst a b Hcut Hb).
Qed.

Lemma split_go_nonempty (sep : string) (s : string) (skip : nat) :
  split_go sep skip s <> [].
Proof.
  revert skip. induction s as [| c s IH]; intros skip; cbn [split_go].
  - discriminate.
  - destruct skip as [| k]; [| apply IH].
    destruct (prefix sep (String c s)); [discriminate |].
    destruct (split_go sep 0 s); discriminate.
Qed.

(** The first part [split] returns is the text before the first occurrence
    of the separator. *)
Lemma py_split_head (sep s : string) :
  hd EmptyString (py_split sep s) = Spec.cut_at_first sep s.
Proof.
  unfold py_split. induction s as [| c s IH]; [reflexivity |].
  cbn [split_go Spec.cut_at_first].
  destruct (prefix sep (String c s)); [reflexivity |].
  destruct (split_go sep 0 s) as [| p ps] eqn:E.
  - exfalso. exact (split_go_nonempty _ _ _ E).
  - simpl in IH. simpl. f_equal. exact IH.
Qed.

(** [replace] of a one-character text works character by character. *)
Lemma py_replace_char (c : ascii) (new s : string) :
  py_replace (String c EmptyString) new s = Spec.replace_char c new s.
Proof.
  unfold py_replace. induction s as [| d s IH]; [reflexivity |].
  cbn [replace_go Spec.replace_char prefix String.length Nat.sub].
  destruct (ascii_dec c d) as [E | N].
  - subst d. rewrite Ascii.eqb_refl.
    destruct s; rewrite IH; reflexivity.
  - destruct (Ascii.eqb_spec d c) as [E | _]; [congruence |].
    rewrite IH. reflexivity.
Qed.

(** ** The detail tool *)

Module InfoFacts.

Import BlurayInfo Spec.

(** C4.  The detail-page URL is the base, the cleaned title, ["-Blu-ray/"],
    the identifier and ["/"], where the cleaned title is the input title cut
    at its first [" ("], with every space then turned into ['-'] and every
    ['+'] then turned into ["and"]; ["Sinners (2025)"] cleans to
    ["Sinners"]. *)
Theorem titleURL_from_cleaned_title (titleInput titleID : string) :
  titleClean titleInput
  = replace_char "+" "and"
      (replace_char " " "-" (cut_at_first " (" titleInput))
  /\ titleURL titleInput titleID
     = ("https://www.blu-ray.com/movies/" ++ titleClean titleInput
        ++ "-Blu-ray/" ++ titleID ++ "/")%string
  /\ titleClean "Sinners (2025)" = "Sinners".
Proof.
  split; [| split; reflexivity].
  unfold titleClean.
  rewrite py_split_head, !py_replace_char. reflexivity.
Qed.

(** One subscript of the cell list: in range it yields the cell, out of
    range the whole extraction raises [IndexError]. *)
Ltac read_cell td i :=
  let L := fresh "L" in
  let E := fresh "E" in
  destruct (idx_cases td i EmptyString) as [[L E] | [L E]];
  rewrite E; cbn [bind]; [ | try reflexivity; try lia ].

Lemma ratings_3D (td : list string) :
  cell td 0 = "3D" -> 15 <= List.length td ->
  ratings td
  = Ok (dict_display
          [(cell td 0, cell td 2); (cell td 3, cell td 5);
           (cell td 6, cell td 8); (cell td 9, cell td 11);
           (cell td 12, cell td 14)]).
Proof.
  intros H0 Hlen. unfold ratings, cell in *.
  rewrite !(idx_in_range td _ EmptyString) by lia. cbn [bind].
  rewrite H0. reflexivity.
Qed.

Lemma ratings_4k (td : list string) :
  cell td 0 = "Video 4k" -> 12 <= List.length td ->
  ratings td
  = Ok (dict_display
          [(cell td 0, cell td 2); (cell td 3, cell td 5);
           (cell td 6, cell td 8); (cell td 9, cell td 11)]).
Proof.
  intros H0 Hlen. unfold ratings, cell in *.
  rewrite !(idx_in_range td _ EmptyString) by lia. cbn [bind].
  rewrite H0. reflexivity.
Qed.

Lemma ratings_default (td : list string) :
  cell td 0 <> "3D" -> cell td 0 <> "Video 4k" -> 9 <= List.length td ->
  ratings td
  = Ok (dict_display
          [(cell td 0, cell td 2); (cell td 3, cell td 5);
           (cell td 6, cell td 8)]).
Proof.
  intros H0 H1 Hlen. unfold ratings, cell in *.
  rewrite !(idx_in_range td _ EmptyString) by lia. cbn [bind].
  destruct (String.eqb_spec (nth 0 td EmptyString) "3D"); [contradiction |].
  destruct (String.eqb_spec (nth 0 td EmptyString) "Video 4k");
    [contradiction | reflexivity].
Qed.

(** C2, as the code has it.  A table with the cells its variant reads (15
    for ["3D"], 12 for ["Video 4k"], 9 otherwise) yields the mapping stored
    from the pairs at offsets (0,2) (3,5) (6,8), then (9,11) and (12,14) for
    the larger variants, a later pair replacing the value of an earlier one
    with the same category text; when the category texts are pairwise
    distinct these are exactly 5, 4 or 3 pairs, in that order. *)
Theorem ratings_by_variant (td : list string) :
  required_cells td <= List.length td ->
  (cell td 0 = "3D" ->
     ratings td
     = Ok (dict_display
             [(cell td 0, cell td 2); (cell td 3, cell td 5);
              (cell td 6, cell td 8); (cell td 9, cell td 11);
              (cell td 12, cell td 14)])
     /\ (NoDup [cell td 0; cell td 3; cell td 6; cell td 9; cell td 12] ->
         ratings td
         = Ok [(cell td 0, cell td 2); (cell td 3, cell td 5);
               (cell td 6, cell td 8); (cell td 9, cell td 11);
               (cell td 12, cell td 14)]))
  /\ (cell td 0 = "Video 4k" ->
     ratings td
     = Ok (dict_display
             [(cell td 0, cell td 2); (cell td 3, cell td 5);
              (cell td 6, cell td 8); (cell td 9, cell td 11)])
     /\ (NoDup [cell td 0; cell td 3; cell td 6; cell td 9] ->
         ratings td
         = Ok [(cell td 0, cell td 2); (cell td 3, cell td 5);
               (cell td 6, cell td 8); (cell td 9, cell td 11)]))
  /\ (cell td 0 <> "3D" -> cell td 0 <> "Video 4k" ->
     ratings td
     = Ok (dict_display
             [(cell td 0, cell td 2); (cell td 3, cell td 5);
              (cell td 6, cell td 8)])
     /\ (NoDup [cell td 0; cell td 3; cell td 6] ->
         ratings td
         = Ok [(cell td 0, cell td 2); (cell td 3, cell td 5);
               (cell td 6, cell td 8)])).
Proof.
  intros Hlen. unfold required_cells in Hlen.
  split; [| split].
  - intros H0. rewrite H0 in Hlen. cbn in Hlen.
    rewrite (ratings_3D td H0 Hlen). split; [reflexivity |].
    intros D. rewrite dict_display_distinct; [reflexivity | exact D].
  - intros H0. rewrite H0 in Hlen. cbn in Hlen.
    rewrite (ratings_4k td H0 Hlen). split; [reflexivity |].
    intros D. rewrite dict_display_distinct; [reflexivity | exact D].
  - intros H0 H1.
    destruct (String.eqb_spec (cell td 0) "3D"); [contradiction |].
    destruct (String.eqb_spec (cell td 0) "Video 4k"); [contradiction |].
    rewrite (ratings_default td H0 H1 Hlen). split; [reflexivity |].
    intros D. rewrite dict_display_distinct; [reflexivity | exact D].
Qed.

(** C6.  A table with fewer cells than its variant reads makes the
    extraction raise [IndexError]; no mapping is produced. *)
Theorem ratings_too_few_cells (td : list string) :
  List.length td < required_cells td -> ratings td = Raise IndexError.
Proof.
  unfold required_cells, cell, ratings. intros Hlen.
  read_cell td 0.
  destruct (String.eqb (nth 0 td EmptyString) "3D").
  - read_cell td 2. read_cell td 3. read_cell td 5.
    read_cell td 6. read_cell td 8. read_cell td 9. read_cell td 11.
    read_cell td 12. read_cell td 14. lia.
  - destruct (String.eqb (nth 0 td EmptyString) "Video 4k").
    + read_cell td 2. read_cell td 3. read_cell td 5.
      read_cell td 6. read_cell td 8. read_cell td 9. read_cell td 11. lia.
    + read_cell td 2. read_cell td 3. read_cell td 5.
      read_cell td 6. read_cell td 8. lia.
Qed.

Ltac distinct_texts :=
  repeat (constructor; [simpl; intuition discriminate |]); constructor.

Lemma ratings_by_variant_witness :
  required_cells Samples.td_3d <= List.length Samples.td_3d
  /\ cell Samples.td_3d 0 = "3D"
  /\ ratings Samples.td_3d
     = Ok [("3D", "4.5"); ("Video", "4.0"); ("Audio", "5.0");
           ("Extras", "3.0"); ("Overall", "4.0")].
Proof.
  assert (L : required_cells Samples.td_3d <= List.length Samples.td_3d)
    by (vm_compute; lia).
  split; [exact L | split; [reflexivity |]].
  apply (proj2 (proj1 (ratings_by_variant Samples.td_3d L) eq_refl)).
  distinct_texts.
Defined.

(** The claim C2 fails on a table too short for its variant, and on a table
    that repeats a category text. *)
Lemma ratings_not_always_five_pairs :
  (cell ["3D"] 0 = "3D" /\ ratings ["3D"] = Raise IndexError)
  /\ (cell Samples.td_3d_twice 0 = "3D"
      /\ List.length Samples.td_3d_twice = 15
      /\ ratings Samples.td_3d_twice
         = Ok [("3D", "4.0"); ("Audio", "5.0"); ("Extras", "3.0");
               ("Overall", "4.0")]).
Proof.
  repeat split.
Qed.

Lemma ratings_too_few_cells_witness :
  List.length ["3D"; ""; "4.5"] < required_cells ["3D"; ""; "4.5"]
  /\ ratings ["3D"; ""; "4.5"] = Raise IndexError.
Proof.
  split; [vm_compute; lia |].
  apply (ratings_too_few_cells ["3D"; ""; "4.5"]). vm_compute. lia.
Defined.

(** *** The record constructor *)

Lemma release_init_Ok (d : list string) (r : release) :
  release_init d = Ok r ->
  exists f0 f1 f2 f3 f4 f5 f6 f7 f8 f9 rest i,
    d = f0 :: f1 :: f2 :: f3 :: f4 :: f5 :: f6 :: f7 :: f8 :: f9 :: rest
    /\ idx (py_split "/" f7) 4 = Ok i
    /\ r = {| studio := f0; year := f1; length := f2; rating := f3;
              date := f4; coverArt := f5; amazon := f6; imdbURL := f7;
              imdbID := i; trailer := f8; title := f9 |}.
Proof.
  intros H. unfold release_init in H.
  destruct d as [| f0 [| f1 [| f2 [| f3 [| f4 [| f5 [| f6 [| f7 d]]]]]]]];
    cbn [idx nth_error bind] in H; try discriminate.
  destruct (idx (py_split "/" f7) 4) as [i |] eqn:Ei;
    cbn [bind] in H; [| discriminate].
  destruct d as [| f8 [| f9 rest]];
    cbn [idx nth_error bind] in H; try discriminate.
  exists f0, f1, f2, f3, f4, f5, f6, f7, f8, f9, rest, i.
  inversion H. auto.
Qed.

Lemma release_init_ten (f0 f1 f2 f3 f4 f5 f6 f7 f8 f9 i : string)
  (rest : list string) :
  idx (py_split "/" f7) 4 = Ok i ->
  release_init
    (f0 :: f1 :: f2 :: f3 :: f4 :: f5 :: f6 :: f7 :: f8 :: f9 :: rest)
  = Ok {| studio := f0; year := f1; length := f2; rating := f3;
          date := f4; coverArt := f5; amazon := f6; imdbURL := f7;
          imdbID := i; trailer := f8; title := f9 |}.
Proof.
  intros Hi. unfold release_init. cbn [idx nth_error bind].
  rewrite Hi. reflexivity.
Qed.

(** C5.  The imdbID of an assembled record is the segment at index 4 of its
    IMDB URL split on ['/']; for
    ["https://www.imdb.com/title/tt1234567/"] it is ["tt1234567"]. *)
Theorem imdbID_is_segment_four (dictionary : list string) (r : release) :
  release_init dictionary = Ok r ->
  nth_error (py_split "/" (imdbURL r)) 4 = Some (imdbID r)
  /\ (imdbURL r = "https://www.imdb.com/title/tt1234567/" ->
      imdbID r = "tt1234567").
Proof.
  intros H. apply release_init_Ok in H.
  destruct H as (f0 & f1 & f2 & f3 & f4 & f5 & f6 & f7 & f8 & f9 & rest & i
                 & _ & Hi & ->).
  cbn [imdbURL imdbID]. apply idx_Ok in Hi. split; [exact Hi |].
  intros ->. vm_compute in Hi. congruence.
Qed.

Lemma imdbID_is_segment_four_witness :
  exists r : release,
    release_init Samples.sinners_fields = Ok r
    /\ nth_error (py_split "/" (imdbURL r)) 4 = Some (imdbID r)
    /\ imdbID r = "tt1234567".
Proof.
  eexists. split; [reflexivity |].
  destruct (imdbID_is_segment_four Samples.sinners_fields _ eq_refl)
    as [A B].
  split; [exact A | apply B; reflexivity].
Defined.

(** *** The positional list *)

Lemma positional_four (a b c d cover buy imdb trailer titleInput : string) :
  positional [a; b; c; d] cover buy imdb trailer titleInput
  = [EmptyString; a; b; c; d; cover; buy; imdb; trailer; titleInput].
Proof. reflexivity. Qed.

Lemma positional_five_or_more
  (p0 p1 p2 p3 p4 cover buy imdb trailer titleInput : string)
  (more : list string) :
  positional (p0 :: p1 :: p2 :: p3 :: p4 :: more)
             cover buy imdb trailer titleInput
  = p0 :: p1 :: p2 :: p3 :: p4 :: cover :: buy :: imdb :: trailer
       :: titleInput :: more.
Proof. reflexivity. Qed.

Lemma positional_length (parts : list string)
  (cover buy imdb trailer titleInput : string) :
  List.length (positional parts cover buy imdb trailer titleInput)
  = if Nat.eqb (List.length parts) 4 then 10 else List.length parts + 5.
Proof.
  unfold positional. rewrite !py_insert_length.
  destruct (Nat.eqb_spec (List.length parts) 4) as [E | _].
  - rewrite py_insert_length, E. reflexivity.
  - lia.
Qed.

(** The constructor needs ten positions: fewer than four subheading parts
    never make a record. *)
Lemma release_init_needs_four_parts (parts : list string)
  (cover buy imdb trailer titleInput : string) (r : release) :
  release_init (positional parts cover buy imdb trailer titleInput) = Ok r ->
  4 <= List.length parts.
Proof.
  intros H. apply release_init_Ok in H.
  destruct H as (f0 & f1 & f2 & f3 & f4 & f5 & f6 & f7 & f8 & f9 & rest & i
                 & Hd & _ & _).
  apply (f_equal (@List.length string)) in Hd.
  rewrite positional_length in Hd. cbn [List.length] in Hd.
  destruct (Nat.eqb_spec (List.length parts) 4); lia.
Qed.

(** Lines 22 to 43 read the page in a fixed order and abort on the first
    missing element; what they build is [positional]. *)
Lemma build_titleInfo_steps (titleInput : string) (soup : detail_page) :
  build_titleInfo titleInput soup
  = (sub <- idx (subheadings soup) 0;;
     rt <- page_ratings soup;;
     cover <- cover_url soup;;
     buy <- purchase_link soup;;
     imdb <- imdb_link soup;;
     trailer <- trailer_url soup;;
     Ok (positional (py_split " | " sub) cover buy imdb trailer titleInput,
         rt)).
Proof.
  unfold build_titleInfo, page_ratings, cover_url, purchase_link, imdb_link,
    trailer_url, positional.
  destruct (idx (subheadings soup) 0) as [sub |]; cbn [bind]; [| reflexivity].
  destruct (idx (rating_divs soup) 0) as [[cells |] |]; cbn [bind];
    try reflexivity.
  destruct (ratings cells) as [rt |]; cbn [bind]; [| reflexivity].
  destruct (subscriptable (frontimage soup)) as [img |]; cbn [bind];
    [| reflexivity].
  destruct (attr img "src") as [cover |]; cbn [bind]; [| reflexivity].
  destruct (idx (buylinks soup) 0) as [buy |]; cbn [bind]; [| reflexivity].
  destruct (attr buy "href") as [href |]; cbn [bind]; [| reflexivity].
  destruct (idx (imdb_icons soup) 0) as [icon |]; cbn [bind]; [| reflexivity].
  destruct (attr icon "href") as [imdb |]; cbn [bind]; [| reflexivity].
  destruct (idx (trailers soup) 0) as [container |]; cbn [bind];
    [| reflexivity].
  destruct (subscriptable container) as [source |]; cbn [bind];
    [| reflexivity].
  destruct (attr source "src") as [trailer |]; reflexivity.
Qed.

Lemma build_titleInfo_Ok (titleInput : string) (soup : detail_page)
  (titleInfo : list string) (rt : dict string) :
  build_titleInfo titleInput soup = Ok (titleInfo, rt) ->
  exists sub cover buy imdb trailer,
    idx (subheadings soup) 0 = Ok sub
    /\ page_ratings soup = Ok rt
    /\ cover_url soup = Ok cover
    /\ purchase_link soup = Ok buy
    /\ imdb_link soup = Ok imdb
    /\ trailer_url soup = Ok trailer
    /\ titleInfo
       = positional (py_split " | " sub) cover buy imdb trailer titleInput.
Proof.
  rewrite build_titleInfo_steps. intros H.
  destruct (idx (subheadings soup) 0) as [sub |]; [| discriminate].
  destruct (page_ratings soup) as [rt' |]; [| discriminate].
  destruct (cover_url soup) as [cover |]; [| discriminate].
  destruct (purchase_link soup) as [buy |]; [| discriminate].
  destruct (imdb_link soup) as [imdb |]; [| discriminate].
  destruct (trailer_url soup) as [trailer |]; [| discriminate].
  cbn [bind] in H. inversion H; subst.
  exists sub, cover, buy, imdb, trailer. repeat split; reflexivity.
Qed.

Lemma main_Ok (titleInput : string) (soup : detail_page)
  (r : release) (rt : dict string) :
  main titleInput soup = Ok (r, rt) ->
  exists titleInfo,
    build_titleInfo titleInput soup = Ok (titleInfo, rt)
    /\ release_init titleInfo = Ok r.
Proof.
  unfold main. intros H.
  destruct (build_titleInfo titleInput soup) as [[titleInfo rt'] |];
    [| discriminate].
  cbn [bind fst snd] in H.
  destruct (release_init titleInfo) as [r' |] eqn:Er; [| discriminate].
  cbn [bind] in H. inversion H; subst.
  exists titleInfo. split; [reflexivity | exact Er].
Qed.

Lemma positional_nine (parts : list string)
  (cover buy imdb trailer titleInput : string) :
  4 <= List.length parts ->
  nth_error (positional parts cover buy imdb trailer titleInput) 9
  = Some titleInput.
Proof.
  intros H.
  destruct parts as [| p0 [| p1 [| p2 [| p3 [| p4 more]]]]];
    cbn [List.length] in H; try lia; reflexivity.
Qed.

(** C3.  When the subheading splits into exactly 4 parts the record's studio
    is empty and its year, length, rating and date are the 4 parts in
    order; when it splits into exactly 5 parts the studio is the first of
    them. *)
Theorem studio_from_subheading (titleInput : string) (soup : detail_page)
  (sub : string) (r : release) (rt : dict string) :
  idx (subheadings soup) 0 = Ok sub ->
  main titleInput soup = Ok (r, rt) ->
  (List.length (py_split " | " sub) = 4 ->
     studio r = EmptyString
     /\ py_split " | " sub = [year r; length r; rating r; date r])
  /\ (List.length (py_split " | " sub) = 5 ->
     nth_error (py_split " | " sub) 0 = Some (studio r)).
Proof.
  intros Hsub Hmain.
  apply main_Ok in Hmain. destruct Hmain as (titleInfo & Hb & Hr).
  apply build_titleInfo_Ok in Hb.
  destruct Hb as (sub' & cover & buy & imdb & trailer
                  & Hs & _ & _ & _ & _ & _ & ->).
  assert (sub' = sub) by congruence. subst sub'.
  apply release_init_Ok in Hr.
  destruct Hr as (f0 & f1 & f2 & f3 & f4 & f5 & f6 & f7 & f8 & f9 & rest & i
                  & Hd & _ & ->).
  cbn [studio year length rating date].
  split; intros Hlen.
  - destruct (py_split " | " sub) as [| a [| b [| c [| d [| e more]]]]];
      try discriminate.
    rewrite positional_four in Hd. inversion Hd; subst. auto.
  - destruct (py_split " | " sub) as [| a [| b [| c [| d [| e [| g more]]]]]];
      try discriminate.
    rewrite positional_five_or_more in Hd. inversion Hd; subst. reflexivity.
Qed.

Lemma studio_from_subheading_witness :
  exists (r : release) (rt : dict string),
    main "Sinners (2025)" Samples.page4 = Ok (r, rt)
    /\ studio r = EmptyString
    /\ py_split " | " "2025 | 137 min | Rated R | Jul 08, 2025"
       = [year r; length r; rating r; date r].
Proof.
  eexists. eexists. split; [reflexivity |].
  apply (proj1 (studio_from_subheading "Sinners (2025)" Samples.page4
                  "2025 | 137 min | Rated R | Jul 08, 2025" _ _
                  eq_refl eq_refl)).
  reflexivity.
Defined.

(** C8.  The record's title is the title given on the command line, which
    sits at position 9 of the positional list; the list has 10 elements
    when the subheading has no more than 5 parts. *)
Theorem title_echoes_input (titleInput : string) (soup : detail_page)
  (r : release) (rt : dict string) :
  main titleInput soup = Ok (r, rt) ->
  title r = titleInput
  /\ exists titleInfo : list string,
       build_titleInfo titleInput soup = Ok (titleInfo, rt)
       /\ release_init titleInfo = Ok r
       /\ nth_error titleInfo 9 = Some titleInput
       /\ (forall sub : string,
             idx (subheadings soup) 0 = Ok sub ->
             List.length (py_split " | " sub) <= 5 ->
             List.length titleInfo = 10).
Proof.
  intros Hmain.
  apply main_Ok in Hmain. destruct Hmain as (titleInfo & Hb & Hr).
  pose proof (build_titleInfo_Ok _ _ _ _ Hb)
    as (sub & cover & buy & imdb & trailer & Hs & _ & _ & _ & _ & _ & Ht).
  subst titleInfo.
  pose proof (release_init_needs_four_parts _ _ _ _ _ _ _ Hr) as Hfour.
  pose proof (positional_nine _ cover buy imdb trailer titleInput Hfour)
    as Hnine.
  split.
  - apply release_init_Ok in Hr.
    destruct Hr as (f0 & f1 & f2 & f3 & f4 & f5 & f6 & f7 & f8 & f9 & rest
                    & i & Hd & _ & ->).
    rewrite Hd in Hnine. cbn in Hnine. cbn [title]. congruence.
  - eexists. split; [exact Hb |]. split; [exact Hr |].
    split; [exact Hnine |].
    intros sub' Hs' Hlen. assert (sub' = sub) by congruence. subst sub'.
    rewrite positional_length.
    destruct (Nat.eqb_spec (List.length (py_split " | " sub)) 4); lia.
Qed.

Lemma title_echoes_input_witness :
  exists (r : release) (rt : dict string),
    main "Sinners (2025)" Samples.page5 = Ok (r, rt)
    /\ title r = "Sinners (2025)".
Proof.
  eexists. eexists. split; [reflexivity |].
  apply (proj1 (title_echoes_input "Sinners (2025)" Samples.page5 _ _
                  eq_refl)).
Defined.

(** C10.  With more than 5 subheading parts, and the page elements and the
    IMDB segment a record always needs, the record is assembled: its first
    five fields are the first five parts, the next five are the cover-art
    URL, the purchase link, the IMDB URL, the trailer URL and the given
    title, and the parts past the fifth lie after position 9 of the list,
    where the constructor does not read. *)
Theorem extra_parts_ignored (titleInput : string) (soup : detail_page)
  (sub cover buy imdb trailer i : string) (rt : dict string) :
  idx (subheadings soup) 0 = Ok sub ->
  5 < List.length (py_split " | " sub) ->
  page_ratings soup = Ok rt ->
  cover_url soup = Ok cover ->
  purchase_link soup = Ok buy ->
  imdb_link soup = Ok imdb ->
  trailer_url soup = Ok trailer ->
  idx (py_split "/" imdb) 4 = Ok i ->
  main titleInput soup
  = Ok ({| studio := cell (py_split " | " sub) 0;
           year := cell (py_split " | " sub) 1;
           length := cell (py_split " | " sub) 2;
           rating := cell (py_split " | " sub) 3;
           date := cell (py_split " | " sub) 4;
           coverArt := cover; amazon := buy; imdbURL := imdb; imdbID := i;
           trailer := trailer; title := titleInput |}, rt)
  /\ build_titleInfo titleInput soup
     = Ok (firstn 5 (py_split " | " sub)
           ++ [cover; buy; imdb; trailer; titleInput]
           ++ skipn 5 (py_split " | " sub), rt).
Proof.
  intros Hs Hlen Hrt Hc Hb Hi Ht Hseg.
  assert (B : build_titleInfo titleInput soup
              = Ok (positional (py_split " | " sub) cover buy imdb trailer
                      titleInput, rt)).
  { rewrite build_titleInfo_steps, Hs, Hrt, Hc, Hb, Hi, Ht. reflexivity. }
  unfold main. rewrite B. cbn [bind fst snd].
  destruct (py_split " | " sub) as [| p0 [| p1 [| p2 [| p3 [| p4 more]]]]];
    cbn [List.length] in Hlen; try lia.
  rewrite positional_five_or_more.
  rewrite (release_init_ten _ _ _ _ _ _ _ _ _ _ i _ Hseg).
  split; reflexivity.
Qed.

Lemma extra_parts_ignored_witness :
  5 < List.length
        (py_split " | "
           "Warner Bros. | 2025 | 137 min | Rated R | Jul 08, 2025 | 4K | Steelbook")
  /\ exists (r : release) (rt : dict string),
       main "Sinners (2025)" Samples.page7 = Ok (r, rt)
       /\ studio r = "Warner Bros." /\ date r = "Jul 08, 2025"
       /\ coverArt r = "https://images.example/front.jpg"
       /\ title r = "Sinners (2025)".
Proof.
  assert (L : 5 < List.length
                    (py_split " | "
                       "Warner Bros. | 2025 | 137 min | Rated R | Jul 08, 2025 | 4K | Steelbook"))
    by (vm_compute; lia).
  split; [exact L |].
  eexists. eexists. split.
  - apply (proj1 (extra_parts_ignored "Sinners (2025)" Samples.page7
                    _ _ _ _ _ "tt1234567" _
                    eq_refl L eq_refl eq_refl eq_refl eq_refl eq_refl
                    eq_refl)).
  - repeat split.
Defined.

End InfoFacts.

(** ** The search tool *)

Module SearchFacts.

Import BluraySearch Spec.

(** *** Plain keywords as patterns *)









(** *** The extractor *)

Lemma add_card_keys_distinct (movies movies' : dict movie) (div : card) :
  NoDup (map fst movies) ->
  add_card movies div = Ok movies' ->
  NoDup (map fst movies').
Proof.
  intros Hd H. unfold add_card in H.
  destruct div as [a |]; [| inversion H; subst; exact Hd].
  destruct (a_img a) as [img |];
    repeat match type of H with
           | bind ?m _ = Ok _ =>
               destruct m; cbn [bind] in H; [| discriminate H]
           end;
    inversion H; subst; apply dict_set_distinct; exact Hd.
Qed.

Lemma extract_keys_distinct (searchresults : list card)
  (movies movies' : dict movie) :
  NoDup (map fst movies) ->
  extract movies searchresults = Ok movies' ->
  NoDup (map fst movies').
Proof.
  revert movies. induction searchresults as [| div rest IH];
    intros movies Hd H; cbn [extract] in H.
  - inversion H; subst. exact Hd.
  - destruct (add_card movies div) as [m |] eqn:E; cbn [bind] in H;
      [| discriminate H].
    apply (IH m); [| exact H].
    apply (add_card_keys_distinct movies m div Hd E).
Qed.

(** *** The printing loop *)

Lemma print_matches_shown (re_other : string -> string -> re_result)
  (searchInput : string) (ms : list movie) :
  exists shown : list movie,
    fst (print_matches re_other searchInput ms) = flat_map entry_block shown
    /\ forall m, In m shown ->
         In m ms /\ re_search re_other searchInput (title m) = ReMatch.
Proof.
  induction ms as [| m ms (shown & Hout & Hall)].
  - exists []. split; [reflexivity | intros m []].
  - cbn [print_matches].
    destruct (re_search re_other searchInput (title m)) eqn:E.
    + exists (m :: shown).
      destruct (print_matches re_other searchInput ms) as [out e].
      cbn [fst] in *. split.
      * cbn [flat_map]. rewrite Hout. reflexivity.
      * intros m' [<- | Hin]; [split; [left; reflexivity | exact E] |].
        destruct (Hall m' Hin) as [A B]. split; [right; exact A | exact B].
    + exists shown. split; [exact Hout |].
      intros m' Hin. destruct (Hall m' Hin) as [A B].
      split; [right; exact A | exact B].
    + exists []. split; [reflexivity | intros m' []].
Qed.

Lemma print_matches_none (re_other : string -> string -> re_result)
  (searchInput : string) (ms : list movie) :
  (forall m, In m ms -> re_search re_other searchInput (title m) = ReNone) ->
  print_matches re_other searchInput ms = ([], None).
Proof.
  induction ms as [| m ms IH]; intros H; [reflexivity |].
  cbn [print_matches]. rewrite (H m (or_introl eq_refl)).
  apply IH. intros m' Hin. apply H. right. exact Hin.
Qed.




(** C7.  When the extractor yields no entry, the tool prints the header and
    the "no results" message, and nothing else. *)
Theorem no_results_message (re_other : string -> string -> re_result)
  (searchInput : string) (searchresults : list card) :
  extract [] searchresults = Ok [] ->
  main re_other searchInput searchresults
  = (["Results:"; "No results. Try fewer words or check your spelling."],
     None).
Proof.
  intros Hex. unfold main. rewrite Hex. reflexivity.
Qed.

Lemma no_results_message_witness :
  extract [] [None; None] = Ok []
  /\ main Samples.no_other "sinners" [None; None]
     = (["Results:"; "No results. Try fewer words or check your spelling."],
        None).
Proof.
  split; [reflexivity |].
  apply (no_results_message Samples.no_other "sinners" [None; None]).
  reflexivity.
Defined.

(** C9.  When the extractor yields entries and the keyword matches none of
    their titles, the tool prints the header alone: no entry and no
    "no results" message. *)
Theorem no_match_prints_header_only
  (re_other : string -> string -> re_result)
  (searchInput : string) (searchresults : list card) (movies : dict movie) :
  extract [] searchresults = Ok movies ->
  movies <> [] ->
  (forall m, In m (dict_values movies) ->
     re_search re_other searchInput (title m) = ReNone) ->
  main re_other searchInput searchresults = (["Results:"], None).
Proof.
  intros Hex Hne Hnone. unfold main. rewrite Hex.
  destruct movies as [| kv movies]; [contradiction |].
  rewrite (print_matches_none re_other searchInput _ Hnone). reflexivity.
Qed.

Lemma no_match_prints_header_only_witness :
  main Samples.no_other "zzz" [Samples.sinners_card; Samples.abc_card]
  = (["Results:"], None).
Proof.
  eapply (no_match_prints_header_only Samples.no_other "zzz"
            [Samples.sinners_card; Samples.abc_card]).
  - reflexivity.
  - discriminate.
  - intros m [<- | [<- | []]]; reflexivity.
Defined.

End SearchFacts.

(** * Further properties of the two scripts *)

(** ** Splitting, joining and replacing *)

Lemma prefix_split (a b : string) :
  prefix a b = true -> exists r : string, b = (a ++ r)%string.
Proof.
  revert b. induction a as [| x a IH]; intros b H.
  - exists b. reflexivity.
  - destruct b as [| y b]; cbn [prefix] in H; [discriminate H |].
    destruct (ascii_dec x y) as [-> | _]; [| discriminate H].
    destruct (IH b H) as [r ->]. exists r. reflexivity.
Qed.

Lemma prefix_append (a r : string) : prefix a (a ++ r) = true.
Proof.
  induction a as [| x a IH]; cbn.
  - destruct r; reflexivity.
  - destruct (ascii_dec x x) as [_ | N]; [exact IH | contradiction].
Qed.

Lemma string_app_assoc (a b c : string) :
  ((a ++ b) ++ c = a ++ b ++ c)%string.
Proof.
  induction a as [| x a IH]; cbn; [reflexivity | rewrite IH; reflexivity].
Qed.

Lemma string_app_empty (a : string) : (a ++ EmptyString)%string = a.
Proof.
  induction a as [| x a IH]; cbn; [reflexivity | rewrite IH; reflexivity].
Qed.

Lemma string_app_length (a b : string) :
  String.length (a ++ b) = String.length a + String.length b.
Proof.
  induction a as [| x a IH]; cbn; [reflexivity | rewrite IH; reflexivity].
Qed.

Lemma split_go_cons (sep : string) (c : ascii) (s : string) :
  split_go sep 0 (String c s)
  = if prefix sep (String c s)
    then EmptyString :: split_go sep (String.length sep - 1) s
    else match split_go sep 0 s with
         | p :: ps => String c p :: ps
         | [] => [String c EmptyString]
         end.
Proof. reflexivity. Qed.

(** The characters of a separator occurrence are passed over. *)
Lemma split_go_skip (sep u s : string) :
  split_go sep (String.length u) (u ++ s) = split_go sep 0 s.
Proof.
  induction u as [| x u IH]; [reflexivity |].
  cbn [String.length append split_go]. exact IH.
Qed.

Lemma join_cons (sep p : string) (ps : list string) :
  exists r : string, Spec.join sep (p :: ps) = (p ++ r)%string.
Proof.
  destruct ps as [| q ps]; cbn [Spec.join].
  - exists EmptyString. rewrite string_app_empty. reflexivity.
  - eexists. reflexivity.
Qed.

Lemma join_push (sep : string) (c : ascii) (p : string) (ps : list string) :
  Spec.join sep (String c p :: ps) = String c (Spec.join sep (p :: ps)).
Proof. destruct ps; reflexivity. Qed.

Section Separator.

Variable sep : string.
Hypothesis sep_nonempty : sep <> EmptyString.

(** At an occurrence of the separator, [split] closes the part it reads and
    goes on after the occurrence. *)
Lemma split_go_at_separator (r : string) :
  split_go sep 0 (sep ++ r) = EmptyString :: split_go sep 0 r.
Proof.
  destruct sep as [| x sep'] eqn:E; [contradiction |].
  cbn [append]. rewrite split_go_cons.
  change (String x (sep' ++ r)) with (String x sep' ++ r)%string.
  rewrite prefix_append.
  cbn [String.length Nat.sub]. rewrite Nat.sub_0_r.
  rewrite split_go_skip. reflexivity.
Qed.

Lemma split_join_bounded (n : nat) (s : string) :
  String.length s <= n ->
  Spec.join sep (split_go sep 0 s) = s
  /\ Forall (fun p => ~ Spec.occurs sep p) (split_go sep 0 s).
Proof.
  revert s. induction n as [| n IH]; intros s Hn.
  - destruct s; [| cbn in Hn; lia]. split; [reflexivity |].
    constructor; [| constructor].
    intros (a & b & H). destruct a; [| discriminate H].
    destruct sep; [contradiction | discriminate H].
  - destruct s as [| c s].
    + split; [reflexivity |]. constructor; [| constructor].
      intros (a & b & H). destruct a; [| discriminate H].
      destruct sep; [contradiction | discriminate H].
    + cbn [String.length] in Hn.
      destruct (prefix sep (String c s)) eqn:E.
      * destruct (prefix_split _ _ E) as [r Hr]. rewrite Hr.
        rewrite split_go_at_separator.
        assert (Hlen : String.length r <= n).
        { apply (f_equal String.length) in Hr.
          rewrite string_app_length in Hr. cbn [String.length] in Hr.
          assert (1 <= String.length sep)
            by (destruct sep; [contradiction | cbn; lia]).
          lia. }
        destruct (IH r Hlen) as [Hj Hf]. split.
        -- destruct (split_go sep 0 r) as [| q qs] eqn:Eq;
             [exfalso; exact (split_go_nonempty _ _ _ Eq) |].
           change (Spec.join sep (EmptyString :: q :: qs))
             with (EmptyString ++ sep ++ Spec.join sep (q :: qs))%string.
           rewrite Hj. reflexivity.
        -- constructor; [| exact Hf].
           intros (a & b & H). destruct a; [| discriminate H].
           destruct sep; [contradiction | discriminate H].
      * rewrite split_go_cons, E.
        assert (Hlen : String.length s <= n) by lia.
        destruct (IH s Hlen) as [Hj Hf].
        destruct (split_go sep 0 s) as [| p ps] eqn:Eq;
          [exfalso; exact (split_go_nonempty _ _ _ Eq) |].
        split.
        -- rewrite join_push, Hj. reflexivity.
        -- apply Forall_cons_iff in Hf. destruct Hf as [Hp Hps].
           constructor; [| exact Hps].
           intros (a & b & H). destruct a as [| x a].
           ++ destruct (join_cons sep p ps) as [t Ht].
              rewrite Hj in Ht. cbn [append] in H.
              assert (Hpre : prefix sep (String c s) = true).
              { rewrite Ht.
                change (String c (p ++ t)) with (String c p ++ t)%string.
                rewrite H, string_app_assoc. apply prefix_append. }
              congruence.
           ++ cbn [append] in H. inversion H as [[Hx Hp']].
              apply Hp. exists a, b. exact Hp'.
Qed.

Lemma py_split_join (s : string) : Spec.join sep (py_split sep s) = s.
Proof.
  apply (proj1 (split_join_bounded (String.length s) s (le_n _))).
Qed.

Lemma py_split_parts_clean (s : string) :
  Forall (fun p => ~ Spec.occurs sep p) (py_split sep s).
Proof.
  apply (proj2 (split_join_bounded (String.length s) s (le_n _))).
Qed.

End Separator.

(** ** More on the detail tool *)

Module InfoProps.

Import BlurayInfo Spec.

Lemma bar_nonempty : " | " <> EmptyString.
Proof. discriminate. Qed.

Lemma slash_nonempty : "/" <> EmptyString.
Proof. discriminate. Qed.

Lemma empty_has_no_occurrence (sep : string) :
  sep <> EmptyString -> ~ occurs sep EmptyString.
Proof.
  intros Hsep (a & b & H). destruct a; [| discriminate H].
  destruct sep; [contradiction | discriminate H].
Qed.

(** X1.  The constructor reads the first ten positions only: it raises nothing
    but [IndexError], and it returns a record exactly when the list has ten
    positions and position 7 has a fifth ['/']-separated segment. *)
Theorem release_init_reads_ten (dictionary : list string) :
  release_init dictionary = release_init (firstn 10 dictionary)
  /\ ((exists r, release_init dictionary = Ok r) <->
      10 <= List.length dictionary
      /\ 5 <= List.length (py_split "/" (cell dictionary 7)))
  /\ (forall e, release_init dictionary = Raise e -> e = IndexError).
Proof.
  unfold release_init, cell.
  destruct dictionary
    as [| f0 [| f1 [| f2 [| f3 [| f4 [| f5 [| f6 [| f7 d]]]]]]]];
    cbn [idx nth_error bind firstn List.length nth];
    try (split; [reflexivity | split; [split; [intros [r H]; discriminate H
                                              | intros [H _]; lia]
                                      | intros e H; congruence]]).
  destruct (idx_cases (py_split "/" f7) 4 EmptyString) as [[L E] | [L E]];
    rewrite E; cbn [bind].
  - destruct d as [| f8 [| f9 rest]];
      cbn [idx nth_error bind firstn List.length].
    + split; [reflexivity | split; [split; [intros [r H]; discriminate H
                                           | intros [H _]; lia]
                                   | intros e H; congruence]].
    + split; [reflexivity | split; [split; [intros [r H]; discriminate H
                                           | intros [H _]; lia]
                                   | intros e H; congruence]].
    + split; [reflexivity | split; [split; [intros _; split; lia
                                           | intros _; eexists; reflexivity]
                                   | intros e H; discriminate H]].
  - split; [reflexivity | split; [split; [intros [r H]; discriminate H
                                         | intros [_ H]; lia]
                                 | intros e H; congruence]].
Qed.

Lemma release_init_reads_ten_witness :
  exists r : release, release_init Samples.sinners_fields = Ok r.
Proof.
  apply (proj2 (proj1 (proj2 (release_init_reads_ten Samples.sinners_fields)))).
  split; vm_compute; lia.
Defined.

(** X2.  The imdbID of a record never holds a ['/']. *)
Theorem imdbID_has_no_slash (dictionary : list string) (r : release) :
  release_init dictionary = Ok r -> ~ occurs "/" (imdbID r).
Proof.
  intros H. apply InfoFacts.release_init_Ok in H.
  destruct H as (f0 & f1 & f2 & f3 & f4 & f5 & f6 & f7 & f8 & f9 & rest & i
                 & _ & Hi & ->).
  cbn [imdbID]. apply idx_Ok in Hi. apply nth_error_In in Hi.
  pose proof (py_split_parts_clean "/" slash_nonempty f7) as Hall.
  rewrite Forall_forall in Hall. exact (Hall i Hi).
Qed.

Lemma imdbID_has_no_slash_witness :
  exists r : release,
    release_init Samples.sinners_fields = Ok r
    /\ imdbID r = "tt1234567" /\ ~ occurs "/" (imdbID r).
Proof.
  eexists. split; [reflexivity |]. split; [reflexivity |].
  apply (imdbID_has_no_slash Samples.sinners_fields _ eq_refl).
Defined.

(** What the record holds of a subheading with at least four parts. *)
Lemma main_fields (titleInput : string) (soup : detail_page) (sub : string)
  (r : release) (rt : dict string) :
  idx (subheadings soup) 0 = Ok sub ->
  main titleInput soup = Ok (r, rt) ->
  py_split " | " sub = [year r; length r; rating r; date r]
                       /\ studio r = EmptyString
  \/ exists more : list string,
       py_split " | " sub
       = studio r :: year r :: length r :: rating r :: date r :: more.
Proof.
  intros Hsub Hmain.
  apply InfoFacts.main_Ok in Hmain. destruct Hmain as (titleInfo & Hb & Hr).
  apply InfoFacts.build_titleInfo_Ok in Hb.
  destruct Hb as (sub' & cover & buy & imdb & trailer
                  & Hs & _ & _ & _ & _ & _ & ->).
  assert (sub' = sub) by congruence. subst sub'.
  pose proof (InfoFacts.release_init_needs_four_parts _ _ _ _ _ _ _ Hr)
    as Hfour.
  apply InfoFacts.release_init_Ok in Hr.
  destruct Hr as (f0 & f1 & f2 & f3 & f4 & f5 & f6 & f7 & f8 & f9 & rest & i
                  & Hd & _ & ->).
  cbn [studio year length rating date].
  destruct (py_split " | " sub) as [| a [| b [| c [| d [| e more]]]]];
    cbn [List.length] in Hfour; try lia.
  - left. rewrite InfoFacts.positional_four in Hd. inversion Hd; subst. auto.
  - right. rewrite InfoFacts.positional_five_or_more in Hd.
    inversion Hd; subst. eexists. reflexivity.
Qed.

(** X3.  The subheading line is the record's fields joined by [" | "]: year,
    length, rating and date when it has 4 parts, studio first when it
    has 5. *)
Theorem subheading_rejoined (titleInput : string) (soup : detail_page)
  (sub : string) (r : release) (rt : dict string) :
  idx (subheadings soup) 0 = Ok sub ->
  main titleInput soup = Ok (r, rt) ->
  (List.length (py_split " | " sub) = 4 ->
     sub = (year r ++ " | " ++ length r ++ " | " ++ rating r ++ " | "
            ++ date r)%string)
  /\ (List.length (py_split " | " sub) = 5 ->
     sub = (studio r ++ " | " ++ year r ++ " | " ++ length r ++ " | "
            ++ rating r ++ " | " ++ date r)%string).
Proof.
  intros Hsub Hmain.
  pose proof (py_split_join " | " bar_nonempty sub) as Hj.
  destruct (main_fields _ _ _ _ _ Hsub Hmain) as [[Hp _] | [more Hp]];
    rewrite Hp in Hj; rewrite Hp; split; intros Hlen;
    try discriminate Hlen.
  - symmetry. exact Hj.
  - destruct more; [| discriminate Hlen]. symmetry. exact Hj.
Qed.

Lemma subheading_rejoined_witness :
  exists (r : release) (rt : dict string),
    main "Sinners (2025)" Samples.page5 = Ok (r, rt)
    /\ "Warner Bros. | 2025 | 137 min | Rated R | Jul 08, 2025"
       = (studio r ++ " | " ++ year r ++ " | " ++ length r ++ " | "
          ++ rating r ++ " | " ++ date r)%string.
Proof.
  eexists. eexists. split; [reflexivity |].
  apply (proj2 (subheading_rejoined "Sinners (2025)" Samples.page5
                  "Warner Bros. | 2025 | 137 min | Rated R | Jul 08, 2025"
                  _ _ eq_refl eq_refl)).
  reflexivity.
Defined.

(** X4.  None of the five fields read from the subheading holds a [" | "]. *)
Theorem subheading_fields_clean (titleInput : string) (soup : detail_page)
  (r : release) (rt : dict string) :
  main titleInput soup = Ok (r, rt) ->
  ~ occurs " | " (studio r) /\ ~ occurs " | " (year r)
  /\ ~ occurs " | " (length r) /\ ~ occurs " | " (rating r)
  /\ ~ occurs " | " (date r).
Proof.
  intros Hmain.
  pose proof (InfoFacts.main_Ok _ _ _ _ Hmain) as (titleInfo & Hb & _).
  apply InfoFacts.build_titleInfo_Ok in Hb.
  destruct Hb as (sub & _ & _ & _ & _ & Hs & _).
  pose proof (py_split_parts_clean " | " bar_nonempty sub) as Hall.
  destruct (main_fields _ _ _ _ _ Hs Hmain) as [[Hp He] | [more Hp]];
    rewrite Hp in Hall;
    repeat match goal with
           | H : Forall _ (_ :: _) |- _ =>
               apply Forall_cons_iff in H;
               let A := fresh "A" in destruct H as [A H]
           end.
  - rewrite He. repeat split; try assumption.
    apply empty_has_no_occurrence. exact bar_nonempty.
  - repeat split; assumption.
Qed.

Lemma subheading_fields_clean_witness :
  exists (r : release) (rt : dict string),
    main "Sinners (2025)" Samples.page7 = Ok (r, rt)
    /\ ~ occurs " | " (studio r) /\ ~ occurs " | " (date r).
Proof.
  eexists. eexists. split; [reflexivity |].
  destruct (subheading_fields_clean "Sinners (2025)" Samples.page7 _ _
              eq_refl) as (A & _ & _ & _ & B).
  split; [exact A | exact B].
Defined.

(** *** When the detail tool returns a record *)

Lemma release_init_short (dictionary : list string) :
  List.length dictionary < 10 -> release_init dictionary = Raise IndexError.
Proof.
  intros Hlen. unfold release_init.
  destruct dictionary
    as [| f0 [| f1 [| f2 [| f3 [| f4 [| f5 [| f6 [| f7 d]]]]]]]];
    cbn [idx nth_error bind]; try reflexivity.
  destruct (idx_cases (py_split "/" f7) 4 EmptyString) as [[_ E] | [_ E]];
    rewrite E; cbn [bind]; [| reflexivity].
  destruct d as [| f8 [| f9 rest]]; cbn [idx nth_error bind];
    try reflexivity.
  cbn [List.length] in Hlen. lia.
Qed.

Lemma release_init_positional (parts : list string)
  (cover buy imdb trailer titleInput : string) :
  (exists r,
     release_init (positional parts cover buy imdb trailer titleInput) = Ok r)
  <-> 4 <= List.length parts /\ 5 <= List.length (py_split "/" imdb).
Proof.
  split.
  - intros [r Hr]. split.
    + exact (InfoFacts.release_init_needs_four_parts _ _ _ _ _ _ _ Hr).
    + pose proof (InfoFacts.release_init_needs_four_parts _ _ _ _ _ _ _ Hr)
        as Hfour.
      apply InfoFacts.release_init_Ok in Hr.
      destruct Hr as (f0 & f1 & f2 & f3 & f4 & f5 & f6 & f7 & f8 & f9 & rest
                      & i & Hd & Hi & _).
      assert (f7 = imdb).
      { destruct parts as [| a [| b [| c [| d [| e more]]]]];
          cbn [List.length] in Hfour; try lia.
        - rewrite InfoFacts.positional_four in Hd. inversion Hd. reflexivity.
        - rewrite InfoFacts.positional_five_or_more in Hd.
          inversion Hd. reflexivity. }
      subst f7. apply idx_Ok in Hi.
      assert (4 < List.length (py_split "/" imdb))
        by (apply nth_error_Some; congruence).
      lia.
  - intros [Hfour Hseg].
    assert (Hi : idx (py_split "/" imdb) 4
                 = Ok (nth 4 (py_split "/" imdb) EmptyString))
      by (apply idx_in_range; lia).
    destruct parts as [| a [| b [| c [| d [| e more]]]]];
      cbn [List.length] in Hfour; try lia.
    + rewrite InfoFacts.positional_four.
      rewrite (InfoFacts.release_init_ten _ _ _ _ _ _ _ _ _ _ _ _ Hi).
      eexists. reflexivity.
    + rewrite InfoFacts.positional_five_or_more.
      rewrite (InfoFacts.release_init_ten _ _ _ _ _ _ _ _ _ _ _ _ Hi).
      eexists. reflexivity.
Qed.

(** X5.  The detail tool returns a record exactly when the page has a
    subheading, a ratings table that reads, a cover image, a purchase link,
    an IMDB link and a trailer source, the subheading has at least 4 parts
    and the IMDB link has at least 5 ['/']-separated segments. *)
Theorem main_succeeds_iff (titleInput : string) (soup : detail_page)
  (rt : dict string) :
  (exists r, main titleInput soup = Ok (r, rt)) <->
  exists sub cover buy imdb trailer : string,
    idx (subheadings soup) 0 = Ok sub
    /\ page_ratings soup = Ok rt
    /\ cover_url soup = Ok cover
    /\ purchase_link soup = Ok buy
    /\ imdb_link soup = Ok imdb
    /\ trailer_url soup = Ok trailer
    /\ 4 <= List.length (py_split " | " sub)
    /\ 5 <= List.length (py_split "/" imdb).
Proof.
  split.
  - intros [r Hmain].
    apply InfoFacts.main_Ok in Hmain. destruct Hmain as (titleInfo & Hb & Hr).
    apply InfoFacts.build_titleInfo_Ok in Hb.
    destruct Hb as (sub & cover & buy & imdb & trailer
                    & Hs & Hrt & Hc & Hbuy & Hi & Ht & ->).
    exists sub, cover, buy, imdb, trailer.
    repeat (split; [assumption |]).
    apply (release_init_positional _ cover buy imdb trailer titleInput).
    exists r. exact Hr.
  - intros (sub & cover & buy & imdb & trailer
            & Hs & Hrt & Hc & Hbuy & Hi & Ht & Hfour & Hseg).
    destruct (proj2 (release_init_positional (py_split " | " sub)
                       cover buy imdb trailer titleInput)
                (conj Hfour Hseg)) as [r Hr].
    exists r. unfold main.
    rewrite InfoFacts.build_titleInfo_steps, Hs, Hrt, Hc, Hbuy, Hi, Ht.
    cbn [bind fst snd]. rewrite Hr. reflexivity.
Qed.

Lemma main_succeeds_iff_witness :
  exists r : release,
    main "Sinners (2025)" Samples.page4
    = Ok (r, [("Video", "4.5"); ("Audio", "5.0"); ("Extras", "3.0")]).
Proof.
  apply (proj2 (main_succeeds_iff "Sinners (2025)" Samples.page4 _)).
  exists "2025 | 137 min | Rated R | Jul 08, 2025",
    "https://images.example/front.jpg", "https://www.amazon.com/dp/B0",
    "https://www.imdb.com/title/tt1234567/", "https://video.example/t.mp4".
  do 6 (split; [reflexivity |]). split; vm_compute; lia.
Defined.

(** X6.  A subheading with fewer than 4 parts never gives a record; on a page
    that has every element the script reads, the constructor raises
    [IndexError]. *)
Theorem too_few_parts_raise (titleInput : string) (soup : detail_page)
  (sub : string) :
  idx (subheadings soup) 0 = Ok sub ->
  List.length (py_split " | " sub) < 4 ->
  (forall r rt, main titleInput soup <> Ok (r, rt))
  /\ (forall rt cover buy imdb trailer,
        page_ratings soup = Ok rt ->
        cover_url soup = Ok cover ->
        purchase_link soup = Ok buy ->
        imdb_link soup = Ok imdb ->
        trailer_url soup = Ok trailer ->
        main titleInput soup = Raise IndexError).
Proof.
  intros Hs Hlen. split.
  - intros r rt Hmain.
    apply InfoFacts.main_Ok in Hmain. destruct Hmain as (titleInfo & Hb & Hr).
    apply InfoFacts.build_titleInfo_Ok in Hb.
    destruct Hb as (sub' & cover & buy & imdb & trailer
                    & Hs' & _ & _ & _ & _ & _ & ->).
    assert (sub' = sub) by congruence. subst sub'.
    pose proof (InfoFacts.release_init_needs_four_parts _ _ _ _ _ _ _ Hr).
    lia.
  - intros rt cover buy imdb trailer Hrt Hc Hbuy Hi Ht.
    unfold main.
    rewrite InfoFacts.build_titleInfo_steps, Hs, Hrt, Hc, Hbuy, Hi, Ht.
    cbn [bind fst snd]. rewrite release_init_short; [reflexivity |].
    rewrite InfoFacts.positional_length.
    destruct (Nat.eqb_spec (List.length (py_split " | " sub)) 4); lia.
Qed.

Lemma too_few_parts_raise_witness :
  List.length (py_split " | " "2025 | 137 min | Rated R") < 4
  /\ main "Sinners (2025)" (Samples.page_with "2025 | 137 min | Rated R")
     = Raise IndexError.
Proof.
  assert (L : List.length (py_split " | " "2025 | 137 min | Rated R") < 4)
    by (vm_compute; lia).
  split; [exact L |].
  apply (proj2 (too_few_parts_raise "Sinners (2025)"
                  (Samples.page_with "2025 | 137 min | Rated R")
                  "2025 | 137 min | Rated R" eq_refl L)
           [("Video", "4.5"); ("Audio", "5.0"); ("Extras", "3.0")]
           "https://images.example/front.jpg"
           "https://www.amazon.com/dp/B0"
           "https://www.imdb.com/title/tt1234567/"
           "https://video.example/t.mp4");
    reflexivity.
Defined.

(** *** The ratings mapping *)

Lemma dict_set_length {V : Type} (d : dict V) (k : string) (v : V) :
  List.length d <= List.length (dict_set d k v) <= S (List.length d).
Proof.
  induction d as [| [k' v'] d IH]; cbn [dict_set List.length]; [lia |].
  destruct (String.eqb k' k); cbn [List.length]; lia.
Qed.

Lemma dict_set_first_key {V : Type} (d : dict V) (k0 k : string) (v0 v : V) :
  exists v1 d1, dict_set ((k0, v0) :: d) k v = (k0, v1) :: d1.
Proof.
  cbn [dict_set]. destruct (String.eqb k0 k); eexists; eexists; reflexivity.
Qed.

Lemma dict_fold_shape {V : Type} (items : list (string * V))
  (k0 : string) (v0 : V) (acc : dict V) :
  NoDup (map fst ((k0, v0) :: acc)) ->
  let d := fold_left (fun d kv => dict_set d (fst kv) (snd kv)) items
             ((k0, v0) :: acc) in
  NoDup (map fst d)
  /\ S (List.length acc) <= List.length d
  /\ List.length d <= S (List.length acc) + List.length items
  /\ exists v1 d1, d = (k0, v1) :: d1.
Proof.
  revert v0 acc. induction items as [| [k v] items IH]; intros v0 acc Hd;
    cbn [fold_left fst snd].
  - cbn [List.length]. repeat split; try lia; [exact Hd |].
    eexists. eexists. reflexivity.
  - destruct (dict_set_first_key acc k0 k v0 v) as (v1 & d1 & E).
    pose proof (dict_set_length ((k0, v0) :: acc) k v) as Hl.
    pose proof (dict_set_distinct ((k0, v0) :: acc) k v Hd) as Hd'.
    rewrite E in *. cbn [List.length] in Hl.
    destruct (IH v1 d1 Hd') as (A & B & C & D).
    cbn [List.length]. repeat split; try assumption; lia.
Qed.

Lemma dict_display_shape {V : Type} (k0 : string) (v0 : V)
  (items : list (string * V)) :
  let d := dict_display ((k0, v0) :: items) in
  NoDup (map fst d)
  /\ 1 <= List.length d <= S (List.length items)
  /\ exists v1 d1, d = (k0, v1) :: d1.
Proof.
  unfold dict_display. cbn [fold_left fst snd dict_set].
  assert (Hd : NoDup (map fst [(k0, v0)]))
    by (constructor; [intros [] | constructor]).
  destruct (dict_fold_shape items k0 v0 [] Hd) as (A & B & C & D).
  cbn [List.length] in *. repeat split; try assumption; lia.
Qed.

Ltac read_or_raise td i H :=
  let L := fresh "L" in
  let E := fresh "E" in
  destruct (idx_cases td i EmptyString) as [[L E] | [L E]];
  rewrite E in H; cbn [bind] in H; [ | try discriminate H ].

(** What a ratings mapping that was built looks like. *)
Lemma ratings_built (td : list string) (d : dict string) :
  ratings td = Ok d ->
  required_cells td <= List.length td
  /\ exists (v : string) (items : list (string * string)),
       d = dict_display ((cell td 0, v) :: items)
       /\ S (List.length items)
          = if String.eqb (cell td 0) "3D" then 5
            else if String.eqb (cell td 0) "Video 4k" then 4 else 3.
Proof.
  unfold ratings, required_cells, cell. intros H.
  read_or_raise td 0 H.
  destruct (String.eqb (nth 0 td EmptyString) "3D").
  - read_or_raise td 2 H. read_or_raise td 3 H. read_or_raise td 5 H.
    read_or_raise td 6 H. read_or_raise td 8 H. read_or_raise td 9 H.
    read_or_raise td 11 H. read_or_raise td 12 H. read_or_raise td 14 H.
    inversion H. split; [lia |]. eexists. eexists.
    split; reflexivity.
  - destruct (String.eqb (nth 0 td EmptyString) "Video 4k").
    + read_or_raise td 2 H. read_or_raise td 3 H. read_or_raise td 5 H.
      read_or_raise td 6 H. read_or_raise td 8 H. read_or_raise td 9 H.
      read_or_raise td 11 H.
      inversion H. split; [lia |]. eexists. eexists.
      split; reflexivity.
    + read_or_raise td 2 H. read_or_raise td 3 H. read_or_raise td 5 H.
      read_or_raise td 6 H. read_or_raise td 8 H.
      inversion H. split; [lia |]. eexists. eexists.
      split; reflexivity.
Qed.

(** X7.  A ratings mapping has no category twice, starts with the text of cell
    0, and has at least 1 and at most 5, 4 or 3 entries by variant; it is
    only built from a table with the cells its variant reads. *)
Theorem ratings_shape (td : list string) (d : dict string) :
  ratings td = Ok d ->
  NoDup (map fst d)
  /\ 1 <= List.length d
  /\ List.length d
     <= (if String.eqb (cell td 0) "3D" then 5
         else if String.eqb (cell td 0) "Video 4k" then 4 else 3)
  /\ (exists v rest, d = (cell td 0, v) :: rest)
  /\ required_cells td <= List.length td.
Proof.
  intros H. destruct (ratings_built td d H) as (Hreq & v & items & -> & Hn).
  destruct (dict_display_shape (cell td 0) v items) as (A & [B C] & D).
  rewrite <- Hn. repeat split; assumption.
Qed.

Lemma ratings_shape_witness :
  exists d : dict string,
    ratings Samples.td_3d_twice = Ok d
    /\ NoDup (map fst d) /\ List.length d <= 5
    /\ exists v rest, d = ("3D", v) :: rest.
Proof.
  eexists. split; [reflexivity |].
  destruct (ratings_shape Samples.td_3d_twice _ eq_refl)
    as (A & _ & B & C & _).
  split; [exact A | split; [exact B | exact C]].
Defined.

(** *** Which step raises what *)

Lemma idx_raises {A : Type} (xs : list A) (i : nat) (e : py_error) :
  idx xs i = Raise e -> e = IndexError.
Proof.
  unfold idx. destruct (nth_error xs i); intros H; inversion H; reflexivity.
Qed.

Lemma attr_raises (a : attrs) (name : string) (e : py_error) :
  attr a name = Raise e -> e = KeyError.
Proof.
  induction a as [| [k v] a IH]; cbn [attr]; intros H.
  - inversion H. reflexivity.
  - destruct (String.eqb k name); [discriminate H | exact (IH H)].
Qed.

Lemma subscriptable_raises {A : Type} (x : option A) (e : py_error) :
  subscriptable x = Raise e -> e = TypeError.
Proof.
  destruct x; intros H; inversion H; reflexivity.
Qed.

Lemma ratings_raises (td : list string) (e : py_error) :
  ratings td = Raise e -> e = IndexError.
Proof.
  intros H.
  destruct (le_lt_dec (required_cells td) (List.length td)) as [Hle | Hlt].
  - exfalso. unfold required_cells in Hle.
    destruct (String.eqb_spec (cell td 0) "3D") as [E3 | N3].
    + rewrite (InfoFacts.ratings_3D td E3 Hle) in H. discriminate H.
    + destruct (String.eqb_spec (cell td 0) "Video 4k") as [E4 | N4].
      * rewrite (InfoFacts.ratings_4k td E4 Hle) in H. discriminate H.
      * rewrite (InfoFacts.ratings_default td N3 N4 Hle) in H.
        discriminate H.
  - unfold ratings in H.
    repeat match type of H with
           | bind (idx ?xs ?i) _ = _ =>
               let E := fresh "E" in
               destruct (idx xs i) eqn:E; cbn [bind] in H;
               [| apply idx_raises in E; congruence]
           | (if ?b then _ else _) = _ => destruct b
           end;
    discriminate H.
Qed.

Lemma release_init_raises (dictionary : list string) (e : py_error) :
  release_init dictionary = Raise e -> e = IndexError.
Proof.
  unfold release_init. intros H.
  repeat match type of H with
         | bind (idx ?xs ?i) _ = _ =>
             let E := fresh "E" in
             destruct (idx xs i) eqn:E; cbn [bind] in H;
             [| apply idx_raises in E; congruence]
         end.
  discriminate H.
Qed.

(** X8.  The tool ends in [AttributeError] exactly when the page has a
    subheading and its first ratings container holds no table, whatever
    else the page lacks. *)
Theorem attribute_error_iff (titleInput : string) (soup : detail_page) :
  main titleInput soup = Raise AttributeError <->
  subheadings soup <> []
  /\ exists rest, rating_divs soup = None :: rest.
Proof.
  unfold main. rewrite InfoFacts.build_titleInfo_steps.
  unfold page_ratings, cover_url, purchase_link, imdb_link, trailer_url.
  split.
  - intros H.
    destruct (idx (subheadings soup) 0) as [sub |] eqn:Es; cbn [bind] in H;
      [| apply idx_raises in Es; congruence].
    split.
    { intros Hnil. rewrite Hnil in Es. discriminate Es. }
    destruct (idx (rating_divs soup) 0) as [[cells |] |] eqn:Ed;
      cbn [bind] in H.
    + exfalso.
      destruct (ratings cells) as [rt |] eqn:Er; cbn [bind] in H;
        [| apply ratings_raises in Er; congruence].
      destruct (subscriptable (frontimage soup)) as [img |] eqn:E1;
        cbn [bind] in H; [| apply subscriptable_raises in E1; congruence].
      destruct (attr img "src") as [cover |] eqn:E2; cbn [bind] in H;
        [| apply attr_raises in E2; congruence].
      destruct (idx (buylinks soup) 0) as [buy |] eqn:E3; cbn [bind] in H;
        [| apply idx_raises in E3; congruence].
      destruct (attr buy "href") as [href |] eqn:E4; cbn [bind] in H;
        [| apply attr_raises in E4; congruence].
      destruct (idx (imdb_icons soup) 0) as [icon |] eqn:E5; cbn [bind] in H;
        [| apply idx_raises in E5; congruence].
      destruct (attr icon "href") as [imdb |] eqn:E6; cbn [bind] in H;
        [| apply attr_raises in E6; congruence].
      destruct (idx (trailers soup) 0) as [container |] eqn:E7;
        cbn [bind] in H; [| apply idx_raises in E7; congruence].
      destruct (subscriptable container) as [source |] eqn:E8;
        cbn [bind] in H; [| apply subscriptable_raises in E8; congruence].
      destruct (attr source "src") as [trailer |] eqn:E9; cbn [bind] in H;
        [| apply attr_raises in E9; congruence].
      cbn [fst snd] in H.
      destruct (release_init _) as [r |] eqn:E10 in H; cbn [bind] in H;
        [discriminate H | apply release_init_raises in E10; congruence].
    + apply idx_Ok in Ed. destruct (rating_divs soup) as [| x rest];
        [discriminate Ed |]. cbn in Ed. inversion Ed. subst x.
      exists rest. reflexivity.
    + apply idx_raises in Ed. congruence.
  - intros [Hne [rest Hr]].
    destruct (subheadings soup) as [| sub subs]; [contradiction |].
    rewrite Hr. reflexivity.
Qed.

Lemma attribute_error_iff_witness :
  main "Sinners (2025)" Samples.page_without_table = Raise AttributeError.
Proof.
  apply (proj2 (attribute_error_iff "Sinners (2025)"
                  Samples.page_without_table)).
  split; [discriminate | eexists; reflexivity].
Defined.

(** *** The cleaned title *)

Lemma chars_app (a b : string) :
  list_ascii_of_string (a ++ b)
  = list_ascii_of_string a ++ list_ascii_of_string b.
Proof.
  induction a as [| x a IH]; cbn; [reflexivity | rewrite IH; reflexivity].
Qed.

Lemma replace_char_chars (c : ascii) (new s : string) (x : ascii) :
  In x (list_ascii_of_string (replace_char c new s)) ->
  In x (list_ascii_of_string new)
  \/ (x <> c /\ In x (list_ascii_of_string s)).
Proof.
  induction s as [| d s IH]; cbn [replace_char list_ascii_of_string];
    [intros [] |].
  destruct (Ascii.eqb_spec d c) as [E | N].
  - rewrite chars_app. intros H. apply in_app_or in H.
    destruct H as [H | H]; [left; exact H |].
    destruct (IH H) as [A | [A B]]; [left; exact A | right].
    split; [exact A | right; exact B].
  - cbn [list_ascii_of_string]. intros [H | H].
    + right. subst x. split; [exact N | left; reflexivity].
    + destruct (IH H) as [A | [A B]]; [left; exact A | right].
      split; [exact A | right; exact B].
Qed.

Lemma replace_char_absent (c : ascii) (new s : string) :
  ~ In c (list_ascii_of_string s) -> replace_char c new s = s.
Proof.
  induction s as [| d s IH]; cbn [replace_char list_ascii_of_string];
    intros H; [reflexivity |].
  destruct (Ascii.eqb_spec d c) as [E | N].
  - exfalso. apply H. left. exact E.
  - f_equal. apply IH. intros Hin. apply H. right. exact Hin.
Qed.

Lemma cut_at_first_absent (x : ascii) (sep' s : string) :
  ~ In x (list_ascii_of_string s) -> cut_at_first (String x sep') s = s.
Proof.
  induction s as [| d s IH]; intros H; [reflexivity |].
  cbn [cut_at_first prefix].
  destruct (ascii_dec x d) as [E | N].
  - exfalso. apply H. left. symmetry. exact E.
  - f_equal. apply IH. intros Hin. apply H. right. exact Hin.
Qed.

(** X9.  The cleaned title holds no space and no ['+'], and cleaning it again
    changes nothing: a cleaned title gives the same URL as the title it
    came from. *)
Theorem titleClean_is_slug (titleInput titleID : string) :
  ~ In " "%char (list_ascii_of_string (titleClean titleInput))
  /\ ~ In "+"%char (list_ascii_of_string (titleClean titleInput))
  /\ titleClean (titleClean titleInput) = titleClean titleInput
  /\ titleURL (titleClean titleInput) titleID = titleURL titleInput titleID.
Proof.
  assert (E : forall t, titleClean t
                        = replace_char "+" "and"
                            (replace_char " " "-" (cut_at_first " (" t))).
  { intros t. unfold titleClean.
    rewrite py_split_head, !py_replace_char. reflexivity. }
  assert (Hspace : ~ In " "%char (list_ascii_of_string (titleClean titleInput))).
  { rewrite E. intros H.
    apply replace_char_chars in H. destruct H as [H | [_ H]].
    - cbn in H. intuition discriminate.
    - apply replace_char_chars in H. destruct H as [H | [N _]].
      + cbn in H. intuition discriminate.
      + apply N. reflexivity. }
  assert (Hplus : ~ In "+"%char (list_ascii_of_string (titleClean titleInput))).
  { rewrite E. intros H.
    apply replace_char_chars in H. destruct H as [H | [N _]].
    - cbn in H. intuition discriminate.
    - apply N. reflexivity. }
  assert (Hidem : titleClean (titleClean titleInput) = titleClean titleInput).
  { rewrite (E (titleClean titleInput)).
    rewrite (cut_at_first_absent " " "(" _ Hspace).
    rewrite (replace_char_absent " " "-" _ Hspace).
    apply replace_char_absent. exact Hplus. }
  repeat split; try assumption.
  unfold titleURL. rewrite Hidem. reflexivity.
Qed.

End InfoProps.

(** ** More on the search tool *)

Module SearchProps.

Import BluraySearch Spec.

(** *** The extractor *)

Lemma dict_set_In {V : Type} (d : dict V) (k k' : string) (v v' : V) :
  In (k', v') (dict_set d k v) -> (k' = k /\ v' = v) \/ In (k', v') d.
Proof.
  induction d as [| [k0 v0] d IH]; cbn [dict_set].
  - intros [H | []]. inversion H. left. split; reflexivity.
  - destruct (String.eqb_spec k0 k) as [E | N].
    + intros [H | H].
      * inversion H. subst. left. split; reflexivity.
      * right. right. exact H.
    + intros [H | H]; [right; left; exact H |].
      destruct (IH H) as [A | A]; [left; exact A | right; right; exact A].
Qed.

Lemma dict_get_set_same {V : Type} (d : dict V) (k : string) (v : V) :
  dict_get (dict_set d k v) k = Ok v.
Proof.
  induction d as [| [k0 v0] d IH]; cbn [dict_set dict_get].
  - rewrite String.eqb_refl. reflexivity.
  - destruct (String.eqb_spec k0 k) as [E | N]; cbn [dict_get].
    + subst k0. rewrite String.eqb_refl. reflexivity.
    + destruct (String.eqb_spec k0 k); [contradiction | exact IH].
Qed.

Lemma dict_get_set_other {V : Type} (d : dict V) (k k' : string) (v : V) :
  k' <> k -> dict_get (dict_set d k v) k' = dict_get d k'.
Proof.
  intros Hne. induction d as [| [k0 v0] d IH]; cbn [dict_set dict_get].
  - destruct (String.eqb_spec k k'); [congruence | reflexivity].
  - destruct (String.eqb_spec k0 k) as [E | N]; cbn [dict_get].
    + subst k0. destruct (String.eqb_spec k k'); [congruence | reflexivity].
    + destruct (String.eqb_spec k0 k'); [reflexivity | exact IH].
Qed.

(** One card: skipped when it holds no link, else stored under its
    product ID. *)
Lemma add_card_Ok (movies movies' : dict movie) (div : card) :
  add_card movies div = Ok movies' ->
  (div = None /\ movies' = movies)
  \/ exists a m,
       div = Some a /\ entry_of a m
       /\ movies' = dict_set movies (productID m) m.
Proof.
  unfold add_card. intros H.
  destruct div as [a |]; [right | left; inversion H; auto].
  exists a. unfold entry_of.
  destruct (a_img a) as [img |];
    repeat match type of H with
           | bind ?m _ = Ok _ =>
               let E := fresh "E" in
               destruct m eqn:E; cbn [bind] in H; [| discriminate H]
           end;
    inversion H;
    match goal with
    | |- context [dict_set movies _ ?r = _] => exists r
    end;
    cbn; repeat split; assumption.
Qed.

Lemma add_card_well_formed (movies : dict movie) (a : anchor) (m : movie) :
  entry_of a m ->
  add_card movies (Some a) = Ok (dict_set movies (productID m) m).
Proof.
  unfold entry_of, add_card.
  intros (H1 & H2 & H3 & H4 & H5 & H6 & H7).
  destruct (a_img a) as [img |].
  - rewrite H1, H2, H3, H4, H5, H6, H7. cbn [bind]. destruct m. cbn in *.
    subst. reflexivity.
  - rewrite H1, H2, H3, H4, H5, H6. cbn [bind]. destruct m. cbn in *.
    subst. reflexivity.
Qed.

Lemma add_card_raises (movies : dict movie) (div : card) (e : py_error) :
  add_card movies div = Raise e -> e = KeyError.
Proof.
  unfold add_card. intros H.
  destruct div as [a |]; [| discriminate H].
  destruct (a_img a) as [img |];
    repeat match type of H with
           | bind ?m _ = Raise _ =>
               let E := fresh "E" in
               destruct m eqn:E; cbn [bind] in H;
               [| apply InfoProps.attr_raises in E; congruence]
           end;
    discriminate H.
Qed.

Lemma extract_app (pre post : list card) (movies : dict movie) :
  extract movies (pre ++ post)
  = (m <- extract movies pre;; extract m post).
Proof.
  revert movies. induction pre as [| div pre IH]; intros movies;
    [reflexivity |].
  cbn [app extract]. destruct (add_card movies div); cbn [bind];
    [apply IH | reflexivity].
Qed.

Lemma extract_invariant (P : string -> movie -> Prop) (R : anchor -> Prop)
  (searchresults : list card) (movies movies' : dict movie) :
  (forall a m, R a -> entry_of a m -> P (productID m) m) ->
  (forall a, In (Some a) searchresults -> R a) ->
  (forall k m, In (k, m) movies -> P k m) ->
  extract movies searchresults = Ok movies' ->
  forall k m, In (k, m) movies' -> P k m.
Proof.
  intros HP. revert movies.
  induction searchresults as [| div rest IH]; intros movies HR Hm H;
    cbn [extract] in H.
  - inversion H; subst. exact Hm.
  - destruct (add_card movies div) as [m1 |] eqn:E; cbn [bind] in H;
      [| discriminate H].
    apply (IH m1); [intros a Ha; apply HR; right; exact Ha | | exact H].
    intros k m Hin.
    destruct (add_card_Ok _ _ _ E) as [[_ ->] | (a & m0 & -> & He & ->)];
      [exact (Hm k m Hin) |].
    destruct (dict_set_In _ _ _ _ _ Hin) as [[-> ->] | Hold];
      [| exact (Hm k m Hold)].
    apply (HP a); [apply HR; left; reflexivity | exact He].
Qed.

(** X10.  Every entry of the extractor's output is stored under its own product
    ID, no ID is stored twice, and each entry holds the attributes of one
    of the cards. *)
Theorem extract_entries (searchresults : list card) (movies : dict movie) :
  extract [] searchresults = Ok movies ->
  NoDup (map fst movies)
  /\ forall k m, In (k, m) movies ->
       k = productID m
       /\ exists a, In (Some a) searchresults /\ entry_of a m.
Proof.
  intros H. split.
  - apply (SearchFacts.extract_keys_distinct searchresults [] movies);
      [constructor | exact H].
  - apply (extract_invariant
             (fun k m => k = productID m
                         /\ exists a, In (Some a) searchresults
                                      /\ entry_of a m)
             (fun a => In (Some a) searchresults)
             searchresults [] movies).
    + intros a m Ha He. split; [reflexivity | exists a; auto].
    + auto.
    + intros k m [].
    + exact H.
Qed.

Lemma extract_entries_witness :
  exists movies : dict movie,
    extract [] [Samples.sinners_card; None; Samples.sinners_4k_card]
    = Ok movies
    /\ NoDup (map fst movies)
    /\ forall k m, In (k, m) movies -> k = productID m.
Proof.
  eexists. split; [reflexivity |].
  destruct (extract_entries
              [Samples.sinners_card; None; Samples.sinners_4k_card] _
              eq_refl) as [A B].
  split; [exact A |]. intros k m Hin. exact (proj1 (B k m Hin)).
Defined.

Lemma extract_keeps_other_ids (post : list card) (movies movies' : dict movie)
  (k : string) :
  (forall b, In (Some b) post -> attr (a_attrs b) "data-productid" <> Ok k) ->
  extract movies post = Ok movies' ->
  dict_get movies' k = dict_get movies k.
Proof.
  revert movies. induction post as [| div rest IH]; intros movies Hk H;
    cbn [extract] in H.
  - inversion H. reflexivity.
  - destruct (add_card movies div) as [m1 |] eqn:E; cbn [bind] in H;
      [| discriminate H].
    rewrite (IH m1); [| intros b Hb; apply Hk; right; exact Hb | exact H].
    destruct (add_card_Ok _ _ _ E) as [[_ ->] | (a & m0 & -> & He & ->)];
      [reflexivity |].
    apply dict_get_set_other. intros ->.
    apply (Hk a (or_introl eq_refl)).
    destruct He as (_ & _ & _ & _ & Hid & _). exact Hid.
Qed.

(** X11.  The entry stored under a product ID is the one read from the last card
    with that ID: later cards with other IDs leave it as it is. *)
Theorem extract_last_wins (pre post : list card) (a : anchor)
  (movies : dict movie) :
  extract [] (pre ++ Some a :: post) = Ok movies ->
  (forall b, In (Some b) post ->
     attr (a_attrs b) "data-productid" <> attr (a_attrs a) "data-productid") ->
  exists m, entry_of a m /\ dict_get movies (productID m) = Ok m.
Proof.
  intros H Hlast. rewrite extract_app in H.
  destruct (extract [] pre) as [m0 |]; cbn [bind] in H; [| discriminate H].
  cbn [extract] in H.
  destruct (add_card m0 (Some a)) as [m1 |] eqn:E; cbn [bind] in H;
    [| discriminate H].
  destruct (add_card_Ok _ _ _ E) as [[N _] | (a' & m & Ha & He & ->)];
    [discriminate N |].
  inversion Ha; subst a'. exists m. split; [exact He |].
  rewrite (extract_keeps_other_ids post (dict_set m0 (productID m) m)
             movies (productID m)).
  - apply dict_get_set_same.
  - intros b Hb. destruct He as (_ & _ & _ & _ & Hid & _).
    rewrite <- Hid. apply Hlast. exact Hb.
  - exact H.
Qed.

Lemma extract_last_wins_witness :
  exists movies : dict movie,
    extract [] ([Samples.sinners_card] ++ Some Samples.sinners_4k_link
                  :: [Samples.abc_card]) = Ok movies
    /\ exists m, title m = "Sinners 4K" /\ dict_get movies "123" = Ok m.
Proof.
  eexists. split; [reflexivity |].
  destruct (extract_last_wins [Samples.sinners_card] [Samples.abc_card]
              Samples.sinners_4k_link _ eq_refl) as (m & He & Hg).
  - intros b [Hb | []]. inversion Hb. discriminate.
  - exists m. destruct He as (Ht & _ & _ & _ & Hid & _).
    cbn in Ht, Hid. injection Ht as Ht'. injection Hid as Hid'.
    split; [symmetry; exact Ht' |].
    rewrite <- Hid' in Hg. exact Hg.
Defined.

(** X12.  The extractor raises nothing but [KeyError], and the tool then prints
    nothing at all, not even the header. *)
Theorem extractor_failure_is_silent
  (re_other : string -> string -> re_result) (searchInput : string)
  (searchresults : list card) (e : py_error) :
  extract [] searchresults = Raise e ->
  e = KeyError /\ main re_other searchInput searchresults = ([], Some KeyError).
Proof.
  intros H.
  assert (He : forall cards movies,
             extract movies cards = Raise e -> e = KeyError).
  { induction cards as [| div rest IH]; intros movies Hx; cbn [extract] in Hx;
      [discriminate Hx |].
    destruct (add_card movies div) as [m1 |] eqn:E; cbn [bind] in Hx.
    - exact (IH m1 Hx).
    - inversion Hx; subst. exact (add_card_raises _ _ _ E). }
  pose proof (He _ _ H) as ->. split; [reflexivity |].
  unfold main. rewrite H. reflexivity.
Qed.

Lemma extractor_failure_is_silent_witness :
  main Samples.no_other "sinners" [Samples.sinners_card; Samples.untitled_card]
  = ([], Some KeyError).
Proof.
  apply (proj2 (extractor_failure_is_silent Samples.no_other "sinners"
                  [Samples.sinners_card; Samples.untitled_card] KeyError
                  eq_refl)).
Defined.

(** X13.  The extractor returns a mapping exactly when every card that holds a
    link has the six attributes it reads and, if it has an image, the
    image's source. *)
Theorem extract_succeeds_iff (searchresults : list card) :
  (exists movies, extract [] searchresults = Ok movies) <->
  (forall a, In (Some a) searchresults -> exists m, entry_of a m).
Proof.
  assert (G : forall cards movies,
             (exists movies', extract movies cards = Ok movies') <->
             (forall a, In (Some a) cards -> exists m, entry_of a m)).
  { induction cards as [| div rest IH]; intros movies; cbn [extract].
    - split; [intros _ a [] | intros _; eexists; reflexivity].
    - split.
      + intros [movies' H].
        destruct (add_card movies div) as [m1 |] eqn:E; cbn [bind] in H;
          [| discriminate H].
        intros a [Ha | Ha].
        * subst div.
          destruct (add_card_Ok _ _ _ E) as [[N _] | (a' & m & Ha' & He & _)];
            [discriminate N |].
          inversion Ha'; subst a'. exists m. exact He.
        * apply (proj1 (IH m1)); [exists movies'; exact H | exact Ha].
      + intros Hall.
        assert (Hrest : forall a, In (Some a) rest -> exists m, entry_of a m)
          by (intros a Ha; apply Hall; right; exact Ha).
        destruct div as [a |].
        * destruct (Hall a (or_introl eq_refl)) as [m He].
          rewrite (add_card_well_formed movies a m He). cbn [bind].
          apply (proj2 (IH _) Hrest).
        * cbn [add_card bind]. apply (proj2 (IH _) Hrest). }
  apply G.
Qed.

Lemma extract_succeeds_iff_witness :
  exists movies : dict movie,
    extract [] [Some Samples.sinners_4k_link; None] = Ok movies.
Proof.
  apply (proj2 (extract_succeeds_iff [Some Samples.sinners_4k_link; None])).
  intros a [H | [H | []]]; [| discriminate H]. inversion H; subst a.
  exists {| title := "Sinners 4K"; categoryID := "8"; parentID := "55";
            gproductID := "67"; productID := "123";
            productURL :=
              "https://www.blu-ray.com/movies/Sinners-4K-Blu-ray/123/";
            productCover := EmptyString |}.
  repeat split.
Defined.

(** *** The printed lines *)

Lemma dict_set_nonempty {V : Type} (d : dict V) (k : string) (v : V) :
  dict_set d k v <> [].
Proof.
  destruct d as [| [k' v'] d]; cbn [dict_set]; [discriminate |].
  destruct (String.eqb k' k); discriminate.
Qed.

Lemma extract_empty_iff (searchresults : list card)
  (acc movies : dict movie) :
  extract acc searchresults = Ok movies ->
  (movies = [] <->
   acc = [] /\ forall div, In div searchresults -> div = None).
Proof.
  revert acc. induction searchresults as [| div rest IH]; intros acc H;
    cbn [extract] in H.
  - inversion H; subst. split; [intros ->; split; [reflexivity | intros ? []]
                               | intros [-> _]; reflexivity].
  - destruct (add_card acc div) as [m1 |] eqn:E; cbn [bind] in H;
      [| discriminate H].
    rewrite (IH m1 H).
    destruct (add_card_Ok _ _ _ E) as [[-> ->] | (a & m & -> & _ & ->)].
    + split.
      * intros [-> Hall]. split; [reflexivity |].
        intros d [<- | Hd]; [reflexivity | exact (Hall d Hd)].
      * intros [-> Hall]. split; [reflexivity |].
        intros d Hd. apply Hall. right. exact Hd.
    + split.
      * intros [N _]. exfalso. exact (dict_set_nonempty _ _ _ N).
      * intros [_ Hall]. exfalso.
        discriminate (Hall (Some a) (or_introl eq_refl)).
Qed.

(** X14.  When the extractor returns, the "no results" message is printed exactly
    when no card of the page holds a link, whatever the keyword. *)
Theorem no_results_iff_no_link (re_other : string -> string -> re_result)
  (searchInput : string) (searchresults : list card) (movies : dict movie) :
  extract [] searchresults = Ok movies ->
  (fst (main re_other searchInput searchresults)
   = ["Results:"; "No results. Try fewer words or check your spelling."]
   <-> forall div, In div searchresults -> div = None).
Proof.
  intros H. pose proof (extract_empty_iff _ _ _ H) as Hempty.
  unfold main. rewrite H. destruct movies as [| kv movies].
  - split; [intros _; apply Hempty; reflexivity | reflexivity].
  - split.
    + intros Hout. exfalso.
      destruct (SearchFacts.print_matches_shown re_other searchInput
                  (dict_values (kv :: movies))) as (shown & Hs & _).
      destruct (print_matches re_other searchInput
                  (dict_values (kv :: movies))) as [out e].
      cbn [fst] in *. rewrite Hs in Hout.
      destruct shown as [| m shown]; cbn in Hout; discriminate Hout.
    + intros Hall. exfalso.
      assert (N : kv :: movies = [])
        by (apply Hempty; split; [reflexivity | exact Hall]).
      discriminate N.
Qed.

Lemma no_results_iff_no_link_witness :
  fst (main Samples.no_other "zzz" [None; None; None])
  = ["Results:"; "No results. Try fewer words or check your spelling."].
Proof.
  apply (proj2 (no_results_iff_no_link Samples.no_other "zzz"
                  [None; None; None] [] eq_refl)).
  intros div [<- | [<- | [<- | []]]]; reflexivity.
Defined.






(** *** The search URL *)

Lemma replace_one_length (c d : ascii) (s : string) :
  String.length (replace_char c (String d EmptyString) s) = String.length s.
Proof.
  induction s as [| x s IH]; [reflexivity |].
  cbn [replace_char]. destruct (Ascii.eqb x c); cbn; rewrite IH; reflexivity.
Qed.

(** X17.  The search term has the length of the keyword and no space; a keyword
    without spaces is sent as it is. *)
Theorem searchTerm_has_no_space (searchInput : string) :
  ~ In " "%char (list_ascii_of_string (searchTerm searchInput))
  /\ String.length (searchTerm searchInput) = String.length searchInput
  /\ (~ In " "%char (list_ascii_of_string searchInput) ->
      searchTerm searchInput = searchInput).
Proof.
  unfold searchTerm. rewrite py_replace_char. split; [| split].
  - intros H. apply InfoProps.replace_char_chars in H.
    destruct H as [H | [N _]].
    + cbn in H. intuition discriminate.
    + apply N. reflexivity.
  - apply replace_one_length.
  - apply InfoProps.replace_char_absent.
Qed.

Lemma searchTerm_has_no_space_witness :
  searchTerm "sinners" = "sinners".
Proof.
  apply (proj2 (proj2 (searchTerm_has_no_space "sinners"))).
  cbn. intuition discriminate.
Defined.

End SearchProps.
